(** * qaK0sTrackingEfficiency: selection and bookkeeping of K0s candidates

    A shallow embedding of [DPG/Tasks/qaK0sTrackingEfficiency.cxx]: the
    task's configurables, the selection predicate [acceptV0], the per-event
    [process] routine and the histogram registry it fills.

    Scalars.  The task compares [float] and [double] columns.  Both are
    IEEE-754 binary formats and every binary32 value is a binary64 value,
    so scalars are modelled by [spec_float], the Standard Library's
    executable description of IEEE-754 values (signed zeros, infinities,
    NaN, finite numbers), with its comparisons [SFltb] and [SFleb]: a
    comparison involving NaN is false, as in C++. *)

From Stdlib Require Import ZArith Bool List Lia.
From Stdlib Require Import Floats.SpecFloat Floats.PrimFloat Floats.FloatOps.
From stdpp Require Import base option strings gmap.

Set Warnings "-inexact-float".
Local Open Scope Z_scope.

(** ** IEEE-754 scalars *)

Module F.

Abbreviation t := spec_float.

(** A decimal literal of the source, rounded to binary64. *)
Definition lit (x : PrimFloat.float) : t := Prim2SF x.

(** C++ [a < b], [a > b], [a <= b], [a >= b]. *)
Definition lt (a b : t) : bool := SFltb a b.
Definition gt (a b : t) : bool := SFltb b a.
Definition le (a b : t) : bool := SFleb a b.
Definition ge (a b : t) : bool := SFleb b a.

(** [TMath::Abs] on a floating-point argument, and unary minus. *)
Definition abs (a : t) : t := SFabs a.
Definition opp (a : t) : t := SFopp a.

Definition is_nan (a : t) : bool :=
  match a with S754_nan => true | _ => false end.

(** [static_cast<double>] of an [int] and of a [bool]. *)
Definition of_int (n : Z) : t := binary_normalize prec emax n 0 false.
Definition of_bool (b : bool) : t := of_int (if b then 1 else 0).

(** Truncation toward zero, the C++ conversion [int(x)] (defined for
    finite values within range). *)
Definition trunc (a : t) : Z :=
  match a with
  | S754_finite s m e => cond_Zopp s (Z.shiftl (Z.pos m) e)
  | _ => 0
  end.

Definition add (a b : t) : t := SFadd prec emax a b.
Definition sub (a b : t) : t := SFsub prec emax a b.
Definition mul (a b : t) : t := SFmul prec emax a b.
Definition div (a b : t) : t := SFdiv prec emax a b.

End F.

(** ** Data model: the rows the host framework hands to the task *)

(** A row of [SelectedCollisions] = [Collisions] joined with [EvSels]. *)
Record Collision := {
  posX : F.t;
  posY : F.t;
  posZ : F.t;
  sel8 : bool
}.

(** A row of [PIDTracks] = [Tracks], [TracksExtra] and [pidTPCPi] joined.
    [itsClusterMap] is a [uint8_t], promoted to [int] where it is used. *)
Record Track := {
  hasTPC : bool;
  hasITS : bool;
  itsClusterMap : Z;
  tpcNSigmaPi : F.t
}.

(** A row of [V0Datas].  [posTrack_as<PIDTracks>()] and
    [negTrack_as<PIDTracks>()] resolve the daughters in the joined track
    table; the row carries the resolved daughters.  [v0cosPA] takes the
    primary-vertex coordinates, as the accessor of the source does. *)
Record V0 := {
  posTrack : Track;
  negTrack : Track;
  v0cosPA : F.t -> F.t -> F.t -> F.t;
  yK0Short : F.t;
  v0radius : F.t;
  pt : F.t;
  mK0Short : F.t
}.

(** ** Configurables *)

Record Config := {
  v0cospa : F.t;
  rapidity : F.t;
  nSigTPC : F.t;
  eventSelection : bool
}.

(** The defaults of the source: [0.995], [0.5], [10.], [true]. *)
Definition default_v0cospa : F.t := Eval cbv in F.lit 0.995%float.
Definition default_rapidity : F.t := Eval cbv in F.lit 0.5%float.
Definition default_nSigTPC : F.t := Eval cbv in F.lit 10%float.

Definition defaultConfig : Config := {|
  v0cospa := default_v0cospa;
  rapidity := default_rapidity;
  nSigTPC := default_nSigTPC;
  eventSelection := true
|}.

(** ** The histogram registry

    Modelled from the spec: the host's histogram registry
    ([HistogramRegistry] and the histograms behind it) is not part of the
    source.  It is the accumulation sink of the specification: named
    histograms, identified by string keys, to which the task sends tuples
    of coordinates.  A histogram keeps its axes, the labels set on the
    bins of its first axis, and the coordinates of every fill it received,
    most recent first.  Bin contents are derived from the fills (see
    [binContent]). *)

Record AxisSpec := {
  nBins : Z;
  binMin : F.t;
  binMax : F.t
}.

Record Hist := {
  axes : list AxisSpec;
  binLabels : list (Z * string);
  entries : list (list F.t)
}.

Abbreviation Registry := (gmap string Hist).

(** The task's code runs against the registry and may fail there (a
    histogram added twice, a fill of a histogram that was never added). *)
Definition Task (A : Type) : Type := Registry -> option (A * Registry).

Definition ret {A : Type} (a : A) : Task A := fun r => Some (a, r).

Definition bind {A B : Type} (m : Task A) (k : A -> Task B) : Task B :=
  fun r => match m r with
           | Some (a, r') => k a r'
           | None => None
           end.

Notation "'let*' x ':=' m 'in' k" := (bind m (fun x => k))
  (at level 10, x name, m at level 100, k at level 200).
Notation "m >>> k" := (bind m (fun _ => k))
  (at level 65, right associativity).

Fixpoint forEach {A : Type} (xs : list A) (body : A -> Task unit) : Task unit :=
  match xs with
  | [] => ret tt
  | x :: xs' => body x >>> forEach xs' body
  end.

(** [registry.add(name, title, type, axes)] *)
Definition add (name : string) (axs : list AxisSpec) : Task unit :=
  fun r => match r !! name with
           | Some _ => None
           | None => Some (tt, <[name := {| axes := axs; binLabels := []; entries := [] |}]> r)
           end.

(** [registry.get<TH1>(HIST(name))->GetXaxis()->SetBinLabel(bin, label)] *)
Definition setBinLabel (name : string) (bin : Z) (label : string) : Task unit :=
  fun r => match r !! name with
           | Some h => Some (tt, <[name := {| axes := axes h;
                                             binLabels := (bin, label) :: binLabels h;
                                             entries := entries h |}]> r)
           | None => None
           end.

Definition addEntry (xs : list F.t) (h : Hist) : Hist :=
  {| axes := axes h; binLabels := binLabels h; entries := xs :: entries h |}.

(** [registry.fill(HIST(name), xs...)]: every argument is cast to
    [double] by the registry. *)
Definition fill (name : string) (xs : list F.t) : Task unit :=
  fun r => match r !! name with
           | Some h => Some (tt, <[name := addEntry xs h]> r)
           | None => None
           end.

(** *** Reading a histogram *)

(** Modelled from the spec: the bin of a fixed-width axis that receives
    [x].  The axis declarations of [init] give the number of bins and the
    two bounds; bins are numbered from 1, as [SetBinLabel(1, "Total")] and
    [SetBinLabel(2, "Selected")] assume; [0] is the underflow bin and
    [nBins + 1] the overflow bin. *)
Definition findBin (ax : AxisSpec) (x : F.t) : Z :=
  if F.lt x (binMin ax) then 0
  else if negb (F.lt x (binMax ax)) then nBins ax + 1
  else 1 + F.trunc (F.div (F.mul (F.of_int (nBins ax)) (F.sub x (binMin ax)))
                          (F.sub (binMax ax) (binMin ax))).

Definition entryBin (h : Hist) (xs : list F.t) : option Z :=
  match axes h, xs with
  | ax :: _, x :: _ => Some (findBin ax x)
  | _, _ => None
  end.

Definition inBin (h : Hist) (bin : Z) (xs : list F.t) : bool :=
  match entryBin h xs with
  | Some b => Z.eqb b bin
  | None => false
  end.

(** Number of fills that landed in bin [bin] of the first axis. *)
Definition binContent (h : Hist) (bin : Z) : nat :=
  length (List.filter (inBin h bin) (entries h)).

Definition labelBin (h : Hist) (label : string) : option Z :=
  fst <$> List.find (fun bl => String.eqb (snd bl) label) (binLabels h).

(** Content of the bin of histogram [name] that carries [label]. *)
Definition labelContent (r : Registry) (name label : string) : nat :=
  match r !! name with
  | Some h => match labelBin h label with
              | Some bin => binContent h bin
              | None => 0%nat
              end
  | None => 0%nat
  end.

Definition entriesOf (r : Registry) (name : string) : list (list F.t) :=
  match r !! name with
  | Some h => entries h
  | None => []
  end.

(** ** The task *)

(** Axis bounds are [float] literals of the source ([0.4f] and [0.6f] are
    the binary32 roundings, written in hexadecimal). *)
Definition f_0 : F.t := Eval cbv in F.lit 0%float.
Definition f_1 : F.t := Eval cbv in F.lit 1%float.
Definition f_10 : F.t := Eval cbv in F.lit 10%float.
Definition f_0_4 : F.t := Eval cbv in F.lit 0x1.99999ap-2%float.
Definition f_0_6 : F.t := Eval cbv in F.lit 0x1.333334p-1%float.
Definition f_m0_5 : F.t := Eval cbv in F.lit (-0.5)%float.
Definition f_1_5 : F.t := Eval cbv in F.lit 1.5%float.
Definition f_3_5 : F.t := Eval cbv in F.lit 3.5%float.

Definition RAxis : AxisSpec := {| nBins := 100; binMin := f_0; binMax := f_10 |}.
Definition pTAxis : AxisSpec := {| nBins := 200; binMin := f_0; binMax := f_10 |}.
Definition mAxis : AxisSpec := {| nBins := 200; binMin := f_0_4; binMax := f_0_6 |}.
Definition statusAxis : AxisSpec := {| nBins := 2; binMin := f_m0_5; binMax := f_1_5 |}.
Definition nhitsAxis : AxisSpec := {| nBins := 4; binMin := f_m0_5; binMax := f_3_5 |}.

Definition init : Task unit :=
  add "h_EventCounter" [{| nBins := 2; binMin := f_m0_5; binMax := f_1_5 |}] >>>
  setBinLabel "h_EventCounter" 1 "Total" >>>
  setBinLabel "h_EventCounter" 2 "Selected" >>>
  add "h5_RpTmassITSStatus" [RAxis; pTAxis; mAxis; statusAxis; statusAxis] >>>
  add "h5_RpTmassIBStatus" [RAxis; pTAxis; mAxis; statusAxis; statusAxis] >>>
  add "Test/h_R" [RAxis] >>>
  add "Test/h_pT" [pTAxis] >>>
  add "Test/h_mass" [mAxis] >>>
  add "Test/h_negITSStatus" [statusAxis] >>>
  add "Test/h_posITSStatus" [statusAxis] >>>
  add "Test/h_negIBStatus" [statusAxis] >>>
  add "Test/h_posIBStatus" [statusAxis] >>>
  add "Test/h_negIBhits" [nhitsAxis] >>>
  add "Test/h_posIBhits" [nhitsAxis].

(** [acceptV0]: each [return kFALSE] of the source is a branch that
    returns [false]; the function is a member of the task and runs
    against its registry like the rest of it. *)
Definition acceptV0 (cfg : Config) (v0 : V0) (ptrack ntrack : Track)
    (collision : Collision) : Task bool :=
  (* Apply selections on V0 *)
  if F.lt (v0cosPA v0 (posX collision) (posY collision) (posZ collision)) (v0cospa cfg)
  then ret false
  else if F.gt (F.abs (yK0Short v0)) (rapidity cfg)
  then ret false
  (* Apply selections on V0 daughters *)
  else if negb (hasTPC ptrack) || negb (hasTPC ntrack)
  then ret false
  else if F.gt (tpcNSigmaPi ptrack) (nSigTPC cfg) || F.gt (tpcNSigmaPi ntrack) (nSigTPC cfg)
  then ret false
  else ret true.

(** One turn of the loop over the three inner-barrel layers: the [int]
    counters go up by one where the bit of layer [i] is set (three
    increments from zero at most, far from the bounds of [int]). *)
Definition ibStep (negMap posMap : Z) (st : Z * Z) (i : Z) : Z * Z :=
  let '(negIBNhits, posIBNhits) := st in
  let negIBNhits :=
    if negb (Z.land negMap (Z.shiftl 1 i) =? 0) then negIBNhits + 1 else negIBNhits in
  let posIBNhits :=
    if negb (Z.land posMap (Z.shiftl 1 i) =? 0) then posIBNhits + 1 else posIBNhits in
  (negIBNhits, posIBNhits).

(** [for (unsigned int i = 0; i < 3; i++)], from [negIBNhits = 0, posIBNhits = 0]. *)
Definition countIB (negMap posMap : Z) : Z * Z :=
  fold_left (ibStep negMap posMap) [0; 1; 2] (0, 0).

(** [(bool)n] for an [int]. *)
Definition int_to_bool (n : Z) : bool := negb (n =? 0).

(** The body of the loop over [fullV0s]. *)
Definition processV0 (cfg : Config) (collision : Collision) (v0 : V0) : Task unit :=
  let recopostrack := posTrack v0 in
  let reconegtrack := negTrack v0 in
  let* accepted := acceptV0 cfg v0 recopostrack reconegtrack collision in
  if accepted then
    fill "Test/h_R" [v0radius v0] >>>
    fill "Test/h_pT" [pt v0] >>>
    fill "Test/h_mass" [mK0Short v0] >>>
    let negHasITS := hasITS reconegtrack in
    let posHasITS := hasITS reconegtrack in
    fill "Test/h_negITSStatus" [F.of_bool negHasITS] >>>
    fill "Test/h_posITSStatus" [F.of_bool posHasITS] >>>
    fill "h5_RpTmassITSStatus"
         [v0radius v0; pt v0; mK0Short v0; F.of_bool negHasITS; F.of_bool posHasITS] >>>
    let '(negIBNhits, posIBNhits) :=
      countIB (itsClusterMap reconegtrack) (itsClusterMap recopostrack) in
    let negHasIB := int_to_bool negIBNhits in
    let posHasIB := int_to_bool posIBNhits in
    fill "Test/h_negIBStatus" [F.of_bool negHasIB] >>>
    fill "Test/h_posIBStatus" [F.of_bool posHasIB] >>>
    fill "Test/h_negIBhits" [F.of_int negIBNhits] >>>
    fill "Test/h_posIBhits" [F.of_int posIBNhits] >>>
    fill "h5_RpTmassIBStatus"
         [v0radius v0; pt v0; mK0Short v0; F.of_bool negHasIB; F.of_bool posHasIB]
  else ret tt.

(** [process(collision, fullV0s, tracks)]; [tracks] is only subscribed to. *)
Definition process (cfg : Config) (collision : Collision) (fullV0s : list V0)
    (tracks : list Track) : Task unit :=
  fill "h_EventCounter" [f_0] >>>
  if eventSelection cfg && negb (sel8 collision) then ret tt
  else
    fill "h_EventCounter" [f_1] >>>
    forEach fullV0s (processV0 cfg collision).

(** The host calls [init] once and [process] once per collision of the
    batch, each with the V0s of that collision and the track table. *)
Record Event := {
  evCollision : Collision;
  evV0s : list V0;
  evTracks : list Track
}.

Definition processEvent (cfg : Config) (ev : Event) : Task unit :=
  process cfg (evCollision ev) (evV0s ev) (evTracks ev).

Definition runBatch (cfg : Config) (evs : list Event) : Task unit :=
  forEach evs (processEvent cfg).

Definition runTask (cfg : Config) (evs : list Event) : Task unit :=
  init >>> runBatch cfg evs.

(** ** Reading the selection predicate *)

(** The value [acceptV0] returns: none of its four rejection tests fires. *)
Definition accepted (cfg : Config) (v0 : V0) (ptrack ntrack : Track)
    (collision : Collision) : bool :=
  negb (F.lt (v0cosPA v0 (posX collision) (posY collision) (posZ collision)) (v0cospa cfg))
  && negb (F.gt (F.abs (yK0Short v0)) (rapidity cfg))
  && (hasTPC ptrack && hasTPC ntrack)
  && (negb (F.gt (tpcNSigmaPi ptrack) (nSigTPC cfg))
      && negb (F.gt (tpcNSigmaPi ntrack) (nSigTPC cfg))).

(** The four conditions as the specification words them. *)
Definition acceptV0_spec (cfg : Config) (v0 : V0) (ptrack ntrack : Track)
    (collision : Collision) : bool :=
  F.ge (v0cosPA v0 (posX collision) (posY collision) (posZ collision)) (v0cospa cfg)
  && F.le (F.abs (yK0Short v0)) (rapidity cfg)
  && (hasTPC ptrack && hasTPC ntrack)
  && (F.le (tpcNSigmaPi ptrack) (nSigTPC cfg)
      && F.le (tpcNSigmaPi ntrack) (nSigTPC cfg)).

(** No compared quantity is NaN. *)
Definition nanFree (cfg : Config) (v0 : V0) (ptrack ntrack : Track)
    (collision : Collision) : bool :=
  negb (F.is_nan (v0cosPA v0 (posX collision) (posY collision) (posZ collision)))
  && negb (F.is_nan (v0cospa cfg))
  && negb (F.is_nan (yK0Short v0))
  && negb (F.is_nan (rapidity cfg))
  && negb (F.is_nan (tpcNSigmaPi ptrack))
  && negb (F.is_nan (tpcNSigmaPi ntrack))
  && negb (F.is_nan (nSigTPC cfg)).

(** Sample rows used by the examples below. *)
Definition sampleTrack (its : bool) (clusters : Z) (nsigma : F.t) : Track :=
  {| hasTPC := true; hasITS := its; itsClusterMap := clusters; tpcNSigmaPi := nsigma |}.

Definition sampleCollision (good : bool) : Collision :=
  {| posX := f_0; posY := f_0; posZ := f_0; sel8 := good |}.

Definition f_0_999 : F.t := Eval cbv in F.lit 0.999%float.
Definition f_0_1 : F.t := Eval cbv in F.lit 0.1%float.
Definition f_0_497 : F.t := Eval cbv in F.lit 0.497%float.
Definition f_2_5 : F.t := Eval cbv in F.lit 2.5%float.
Definition f_m1e30 : F.t := Eval cbv in F.lit (-1e30)%float.

Definition sampleV0 (cospa : F.t) (p n : Track) : V0 :=
  {| posTrack := p; negTrack := n;
     v0cosPA := fun _ _ _ => cospa;
     yK0Short := f_0_1; v0radius := f_2_5; pt := f_1; mK0Short := f_0_497 |}.

(** A candidate whose pointing-angle cosine is NaN (a V0 with vanishing
    momentum or flight line), otherwise well inside every cut. *)
Definition nanV0 : V0 :=
  sampleV0 S754_nan (sampleTrack true 7 f_1) (sampleTrack true 7 f_1).

(** The candidate of the end-to-end scenario: cosPA 0.999, rapidity 0.1,
    TPC on both daughters, PID deviation 1, cluster map 0b111. *)
Definition goodV0 (negITS posITS : bool) : V0 :=
  sampleV0 f_0_999 (sampleTrack posITS 7 f_1) (sampleTrack negITS 7 f_1).

(** Two tracks agree on everything but their ITS columns. *)
Definition sameButITS (t t' : Track) : Prop :=
  hasTPC t = hasTPC t' /\ tpcNSigmaPi t = tpcNSigmaPi t'.

(** Two candidates agree on everything but the ITS columns of their
    daughters. *)
Definition sameV0ButITS (v v' : V0) : Prop :=
  v0cosPA v = v0cosPA v' /\ yK0Short v = yK0Short v' /\ v0radius v = v0radius v'
  /\ pt v = pt v' /\ mK0Short v = mK0Short v'
  /\ sameButITS (posTrack v) (posTrack v') /\ sameButITS (negTrack v) (negTrack v').

(** ** The fills of a run, as a trace

    [process] only ever adds fills to histograms that [init] booked.  Its
    effect on a booked registry is therefore described by the list of the
    fills it makes, in order (lemmas [processV0_fills], [process_fills] and
    [runBatch_fills] below). *)

Definition histNames : list string :=
  ["h_EventCounter"; "h5_RpTmassITSStatus"; "h5_RpTmassIBStatus";
   "Test/h_R"; "Test/h_pT"; "Test/h_mass";
   "Test/h_negITSStatus"; "Test/h_posITSStatus";
   "Test/h_negIBStatus"; "Test/h_posIBStatus";
   "Test/h_negIBhits"; "Test/h_posIBhits"].

(** The registry [init] leaves behind. *)
Definition initRegistry : Registry :=
  match init ∅ with
  | Some (_, r) => r
  | None => ∅
  end.

Definition shape (h : Hist) : list AxisSpec * list (Z * string) :=
  (axes h, binLabels h).

(** A registry that holds exactly the histograms of [init], with their
    axes and labels, whatever they were filled with since. *)
Definition booked (r : Registry) : Prop :=
  forall name : string, shape <$> r !! name = shape <$> initRegistry !! name.

Definition Fill : Type := string * list F.t.

Definition record (r : Registry) (f : Fill) : Registry :=
  match r !! f.1 with
  | Some h => <[f.1 := addEntry f.2 h]> r
  | None => r
  end.

Definition applyFills (fs : list Fill) (r : Registry) : Registry :=
  fold_left record fs r.

(** The coordinates sent to histogram [name], oldest first. *)
Definition fillsTo (name : string) (fs : list Fill) : list (list F.t) :=
  map snd (List.filter (fun f => String.eqb f.1 name) fs).

Definition v0Fills (cfg : Config) (collision : Collision) (v0 : V0) : list Fill :=
  if accepted cfg v0 (posTrack v0) (negTrack v0) collision then
    let negHasITS := hasITS (negTrack v0) in
    let '(negIBNhits, posIBNhits) :=
      countIB (itsClusterMap (negTrack v0)) (itsClusterMap (posTrack v0)) in
    [ ("Test/h_R", [v0radius v0]);
      ("Test/h_pT", [pt v0]);
      ("Test/h_mass", [mK0Short v0]);
      ("Test/h_negITSStatus", [F.of_bool negHasITS]);
      ("Test/h_posITSStatus", [F.of_bool negHasITS]);
      ("h5_RpTmassITSStatus",
        [v0radius v0; pt v0; mK0Short v0; F.of_bool negHasITS; F.of_bool negHasITS]);
      ("Test/h_negIBStatus", [F.of_bool (int_to_bool negIBNhits)]);
      ("Test/h_posIBStatus", [F.of_bool (int_to_bool posIBNhits)]);
      ("Test/h_negIBhits", [F.of_int negIBNhits]);
      ("Test/h_posIBhits", [F.of_int posIBNhits]);
      ("h5_RpTmassIBStatus",
        [v0radius v0; pt v0; mK0Short v0;
         F.of_bool (int_to_bool negIBNhits); F.of_bool (int_to_bool posIBNhits)]) ]
  else [].

Definition eventFills (cfg : Config) (ev : Event) : list Fill :=
  ("h_EventCounter", [f_0]) ::
  (if eventSelection cfg && negb (sel8 (evCollision ev)) then []
   else ("h_EventCounter", [f_1]) :: flat_map (v0Fills cfg (evCollision ev)) (evV0s ev)).

Definition batchFills (cfg : Config) (evs : list Event) : list Fill :=
  flat_map (eventFills cfg) evs.

(** The two labelled bins of the event counter. *)
Definition totalCount (r : Registry) : nat := labelContent r "h_EventCounter" "Total".
Definition selectedCount (r : Registry) : nat := labelContent r "h_EventCounter" "Selected".

(** Number of set bits among bits 0, 1 and 2 of a cluster map. *)
Definition innerBits (m : Z) : Z :=
  Z.b2z (Z.testbit m 0) + Z.b2z (Z.testbit m 1) + Z.b2z (Z.testbit m 2).

(** Whether a fill lands in bin [bin] of axis [ax], and how many fills of
    a list do. *)
Definition inAxisBin (ax : AxisSpec) (bin : Z) (xs : list F.t) : bool :=
  match xs with
  | x :: _ => findBin ax x =? bin
  | [] => false
  end.

Definition countFills (ax : AxisSpec) (bin : Z) (l : list (list F.t)) : nat :=
  length (List.filter (inAxisBin ax bin) l).

(** The event counter as [init] books it. *)
Definition eventCounter0 : Hist :=
  {| axes := [statusAxis]; binLabels := [(2, "Selected"); (1, "Total")]; entries := [] |}.

(** How far one event moves the "Selected" bin. *)
Definition selectedStep (cfg : Config) (collision : Collision) : nat :=
  if eventSelection cfg && negb (sel8 collision) then 0%nat else 1%nat.

(** The default cuts with the event selection switched off. *)
Definition noSelectionConfig : Config := {|
  v0cospa := default_v0cospa;
  rapidity := default_rapidity;
  nSigTPC := default_nSigTPC;
  eventSelection := false
|}.

(** An event without V0s whose collision carries the given [sel8] flag. *)
Definition emptyEvent (good : bool) : Event :=
  {| evCollision := sampleCollision good; evV0s := []; evTracks := [] |}.

(** The fills of an accepted candidate, written with [innerBits]. *)
Definition acceptedFills (v0 : V0) : list Fill :=
  let its := F.of_bool (hasITS (negTrack v0)) in
  let negHits := innerBits (itsClusterMap (negTrack v0)) in
  let posHits := innerBits (itsClusterMap (posTrack v0)) in
  [ ("Test/h_R", [v0radius v0]);
    ("Test/h_pT", [pt v0]);
    ("Test/h_mass", [mK0Short v0]);
    ("Test/h_negITSStatus", [its]);
    ("Test/h_posITSStatus", [its]);
    ("h5_RpTmassITSStatus", [v0radius v0; pt v0; mK0Short v0; its; its]);
    ("Test/h_negIBStatus", [F.of_bool (0 <? negHits)]);
    ("Test/h_posIBStatus", [F.of_bool (0 <? posHits)]);
    ("Test/h_negIBhits", [F.of_int negHits]);
    ("Test/h_posIBhits", [F.of_int posHits]);
    ("h5_RpTmassIBStatus",
      [v0radius v0; pt v0; mK0Short v0; F.of_bool (0 <? negHits); F.of_bool (0 <? posHits)]) ].

(** The same candidate with another [hasITS] flag on its positive daughter. *)
Definition withPosHasITS (v0 : V0) (b : bool) : V0 :=
  {| posTrack := {| hasTPC := hasTPC (posTrack v0); hasITS := b;
                    itsClusterMap := itsClusterMap (posTrack v0);
                    tpcNSigmaPi := tpcNSigmaPi (posTrack v0) |};
     negTrack := negTrack v0;
     v0cosPA := v0cosPA v0; yK0Short := yK0Short v0;
     v0radius := v0radius v0; pt := pt v0; mK0Short := mK0Short v0 |}.

(** A 5D fill whose fourth and fifth coordinates coincide. *)
Definition statusDiagonal (xs : list F.t) : Prop :=
  match xs with
  | [_; _; _; a; b] => a = b
  | _ => False
  end.

(** [0.999] and [0.1] as a [float] column holds them. *)
Definition f32_0_999 : F.t := Eval cbv in F.lit 0x1.ff7ceep-1%float.
Definition f32_0_1 : F.t := Eval cbv in F.lit 0x1.99999ap-4%float.

(** The event of the end-to-end scenario, around one candidate. *)
Definition singleV0Event (collision : Collision) (v0 : V0) (tracks : list Track) : Event :=
  {| evCollision := collision; evV0s := [v0]; evTracks := tracks |}.

(** ** Reading a whole run *)

(** The histograms filled once per accepted candidate. *)
Definition perV0Names : list string :=
  ["h5_RpTmassITSStatus"; "h5_RpTmassIBStatus";
   "Test/h_R"; "Test/h_pT"; "Test/h_mass";
   "Test/h_negITSStatus"; "Test/h_posITSStatus";
   "Test/h_negIBStatus"; "Test/h_posIBStatus";
   "Test/h_negIBhits"; "Test/h_posIBhits"].

(** The event gets past the early [return] of [process]. *)
Definition eventPasses (cfg : Config) (ev : Event) : bool :=
  negb (eventSelection cfg && negb (sel8 (evCollision ev))).

(** The candidates of a batch that reach the fills, in processing order. *)
Definition acceptedV0s (cfg : Config) (evs : list Event) : list V0 :=
  flat_map (fun ev =>
              if eventSelection cfg && negb (sel8 (evCollision ev)) then []
              else List.filter (fun v0 => accepted cfg v0 (posTrack v0) (negTrack v0)
                                                   (evCollision ev))
                               (evV0s ev))
           evs.

(** Coordinate [i] of a fill, as a 1D fill. *)
Definition coord (i : nat) (xs : list F.t) : list F.t :=
  match nth_error xs i with
  | Some x => [x]
  | None => []
  end.

(** The same candidate with another rapidity. *)
Definition withRapidity (v0 : V0) (y : F.t) : V0 :=
  {| posTrack := posTrack v0; negTrack := negTrack v0;
     v0cosPA := v0cosPA v0; yK0Short := y;
     v0radius := v0radius v0; pt := pt v0; mK0Short := mK0Short v0 |}.

(** A cut is switched off when the measured value or its threshold is NaN. *)
Definition cutOff (x threshold : F.t) : bool := F.is_nan x || F.is_nan threshold.

(** An event with the given [sel8] flag and candidates. *)
Definition sampleEvent (good : bool) (v0s : list V0) : Event :=
  {| evCollision := sampleCollision good; evV0s := v0s; evTracks := [] |}.

(** A candidate of [sampleV0] kinematics that fails the pointing-angle cut. *)
Definition badV0 : V0 :=
  sampleV0 f_0_1 (sampleTrack true 7 f_1) (sampleTrack true 7 f_1).

(** Number of coordinates of the fills [process] sends to a histogram. *)
Definition fillArity (name : string) : nat :=
  if String.eqb name "h5_RpTmassITSStatus" || String.eqb name "h5_RpTmassIBStatus"
  then 5%nat else 1%nat.

(** A 1D fill that lands in one of the bins [lo .. hi] of axis [ax]. *)
Definition landsIn (ax : AxisSpec) (lo hi : Z) (xs : list F.t) : Prop :=
  match xs with
  | [x] => lo <= findBin ax x <= hi
  | _ => False
  end.

(** A fill of a 1D histogram that lands in one of the bins [1 .. nBins]
    of the axis the histogram itself holds: neither underflow nor
    overflow. *)
Definition inOwnRange (h : Hist) (xs : list F.t) : Prop :=
  match axes h, xs with
  | [ax], [x] => 1 <= findBin ax x <= nBins ax
  | _, _ => False
  end.

(** A PID deviation just above the default threshold. *)
Definition f_10_5 : F.t := Eval cbv in F.lit 10.5%float.
(** * Properties *)

(** ** Comparisons of IEEE-754 values *)

Section Comparisons.

Lemma SFcompare_swap (a b : F.t) :
  SFcompare b a = CompOpp <$> SFcompare a b.
Proof.
  destruct a as [sa|sa| |sa ma ea], b as [sb|sb| |sb mb eb]; simpl;
    try reflexivity; try (destruct sa; reflexivity); try (destruct sb; reflexivity);
    try (destruct sa, sb; reflexivity).
  assert (Hm : Pos.compare_cont Eq mb ma = CompOpp (Pos.compare_cont Eq ma mb))
    by (symmetry; apply (Pos.compare_cont_antisym ma mb Eq)).
  change (PosDef.Pos.compare_cont Eq mb ma) with (Pos.compare_cont Eq mb ma).
  rewrite (Z.compare_antisym ea eb), Hm.
  destruct sa, sb; simpl; try reflexivity;
    destruct (ea ?= eb); simpl; try reflexivity;
    destruct (Pos.compare_cont Eq ma mb); reflexivity.
Qed.

Lemma SFcompare_defined (a b : F.t) :
  F.is_nan a = false -> F.is_nan b = false -> is_Some (SFcompare a b).
Proof.
  destruct a, b; simpl; intros; try discriminate; eauto.
Qed.

(** Without NaN, [a < b] is the negation of [a >= b]. *)
Lemma lt_negb_ge (a b : F.t) :
  F.is_nan a = false -> F.is_nan b = false -> F.lt a b = negb (F.ge a b).
Proof.
  intros Ha Hb. unfold F.lt, F.ge, SFltb, SFleb.
  rewrite (SFcompare_swap a b).
  destruct (SFcompare_defined a b Ha Hb) as [c ->]. destruct c; reflexivity.
Qed.

(** Without NaN, [a > b] is the negation of [a <= b]. *)
Lemma gt_negb_le (a b : F.t) :
  F.is_nan a = false -> F.is_nan b = false -> F.gt a b = negb (F.le a b).
Proof.
  intros Ha Hb. unfold F.gt, F.le, SFltb, SFleb.
  rewrite (SFcompare_swap a b).
  destruct (SFcompare_defined a b Ha Hb) as [c ->]. destruct c; reflexivity.
Qed.

(** [a <= b] excludes [a > b], NaN or not. *)
Lemma le_not_gt (a b : F.t) : F.le a b = true -> F.gt a b = false.
Proof.
  unfold F.gt, F.le, SFltb, SFleb. rewrite (SFcompare_swap a b).
  destruct (SFcompare a b) as [[]|]; simpl; congruence.
Qed.

Lemma ge_not_lt (a b : F.t) : F.ge a b = true -> F.lt a b = false.
Proof.
  unfold F.lt, F.ge, SFltb, SFleb. rewrite (SFcompare_swap a b).
  destruct (SFcompare a b) as [[]|]; simpl; congruence.
Qed.

Lemma is_nan_abs (a : F.t) : F.is_nan (F.abs a) = F.is_nan a.
Proof. destruct a; reflexivity. Qed.

(** A comparison with NaN is false. *)
Lemma lt_nan_l (b : F.t) : F.lt S754_nan b = false.
Proof. reflexivity. Qed.

Lemma ge_nan_l (b : F.t) : F.ge S754_nan b = false.
Proof. destruct b; reflexivity. Qed.

(** For a threshold [b >= 0], a value below [-b] is not above [b]. *)
Lemma below_opp_not_gt (b a : F.t) :
  F.ge b f_0 = true -> F.lt a (F.opp b) = true -> F.gt a b = false.
Proof.
  destruct b as [sb|sb| |sb mb eb], a as [sa|sa| |sa ma ea];
    try destruct sb; try destruct sa; simpl; try discriminate; reflexivity.
Qed.

End Comparisons.

(** ** The selection predicate *)

Lemma acceptV0_run cfg v0 ptrack ntrack collision (r : Registry) :
  acceptV0 cfg v0 ptrack ntrack collision r
  = Some (accepted cfg v0 ptrack ntrack collision, r).
Proof.
  unfold acceptV0, accepted.
  destruct (F.lt _ (v0cospa cfg)); [reflexivity|].
  destruct (F.gt _ (rapidity cfg)); [reflexivity|].
  destruct (hasTPC ptrack), (hasTPC ntrack); try reflexivity.
  destruct (F.gt (tpcNSigmaPi ptrack) _), (F.gt (tpcNSigmaPi ntrack) _); reflexivity.
Qed.

Lemma accepted_spec_nanFree cfg v0 ptrack ntrack collision :
  nanFree cfg v0 ptrack ntrack collision = true ->
  accepted cfg v0 ptrack ntrack collision = acceptV0_spec cfg v0 ptrack ntrack collision.
Proof.
  unfold nanFree, accepted, acceptV0_spec. intros H.
  repeat (apply andb_prop in H; destruct H as [H ?]).
  repeat match goal with
         | [ E : negb _ = true |- _ ] => apply negb_true_iff in E
         end.
  rewrite !lt_negb_ge, !gt_negb_le, !negb_involutive
    by (rewrite ?is_nan_abs; assumption).
  reflexivity.
Qed.

(** C1, as stated, fails: with a NaN pointing-angle cosine the test
    [cosPA < v0cospa] is false, so the candidate is not rejected, although
    [cosPA >= v0cospa] does not hold either. *)
Lemma acceptV0_nan_cospa_accepted :
  acceptV0 defaultConfig nanV0 (posTrack nanV0) (negTrack nanV0) (sampleCollision true) ∅
  = Some (true, ∅)
  /\ acceptV0_spec defaultConfig nanV0 (posTrack nanV0) (negTrack nanV0) (sampleCollision true)
     = false.
Proof. split; reflexivity. Qed.

(** C1 (amended): when none of the compared quantities (pointing-angle
    cosine, rapidity, the two PID deviations, the three thresholds) is NaN,
    [acceptV0] returns true if and only if the four conditions hold:
    cosPA >= v0cospa, |y| <= rapidity, both daughters have a TPC hit, both
    PID deviations <= nSigTPC; it returns false exactly when one fails. *)
Theorem acceptV0_iff_conditions cfg v0 ptrack ntrack collision (r : Registry) :
  nanFree cfg v0 ptrack ntrack collision = true ->
  acceptV0 cfg v0 ptrack ntrack collision r
  = Some (acceptV0_spec cfg v0 ptrack ntrack collision, r).
Proof.
  intros H. rewrite acceptV0_run. now rewrite (accepted_spec_nanFree _ _ _ _ _ H).
Qed.

Lemma acceptV0_iff_conditions_witness :
  nanFree defaultConfig (goodV0 true true) (posTrack (goodV0 true true))
          (negTrack (goodV0 true true)) (sampleCollision true) = true
  /\ acceptV0 defaultConfig (goodV0 true true) (posTrack (goodV0 true true))
              (negTrack (goodV0 true true)) (sampleCollision true) ∅
     = Some (true, ∅).
Proof.
  split; [reflexivity|].
  exact (acceptV0_iff_conditions defaultConfig (goodV0 true true)
           (posTrack (goodV0 true true)) (negTrack (goodV0 true true))
           (sampleCollision true) ∅ eq_refl).
Defined.

(** C8: the PID cut is an upper bound, and an upper bound only.  With the
    other three cuts passed, (1) the candidate is rejected as soon as one
    daughter's deviation is > nSigTPC, so that [acceptV0] returns true
    exactly when neither deviation is > nSigTPC; (2) it is accepted
    whenever each daughter's deviation is <= nSigTPC or, for a
    non-negative nSigTPC, below -nSigTPC, however negative; (3) a
    rejection happens only when a daughter's deviation is > nSigTPC,
    never on account of a deviation that is too low. *)
Theorem acceptV0_pid_upper_bound_only cfg v0 ptrack ntrack collision (r : Registry) :
  F.lt (v0cosPA v0 (posX collision) (posY collision) (posZ collision)) (v0cospa cfg) = false ->
  F.gt (F.abs (yK0Short v0)) (rapidity cfg) = false ->
  hasTPC ptrack = true -> hasTPC ntrack = true ->
  (F.gt (tpcNSigmaPi ptrack) (nSigTPC cfg) = true
   \/ F.gt (tpcNSigmaPi ntrack) (nSigTPC cfg) = true ->
   acceptV0 cfg v0 ptrack ntrack collision r = Some (false, r))
  /\ acceptV0 cfg v0 ptrack ntrack collision r
     = Some (negb (F.gt (tpcNSigmaPi ptrack) (nSigTPC cfg))
             && negb (F.gt (tpcNSigmaPi ntrack) (nSigTPC cfg)), r)
  /\ ((forall t, t = ptrack \/ t = ntrack ->
        F.le (tpcNSigmaPi t) (nSigTPC cfg) = true
        \/ (F.ge (nSigTPC cfg) f_0 = true
            /\ F.lt (tpcNSigmaPi t) (F.opp (nSigTPC cfg)) = true)) ->
      acceptV0 cfg v0 ptrack ntrack collision r = Some (true, r))
  /\ (acceptV0 cfg v0 ptrack ntrack collision r = Some (false, r) ->
      F.gt (tpcNSigmaPi ptrack) (nSigTPC cfg) = true
      \/ F.gt (tpcNSigmaPi ntrack) (nSigTPC cfg) = true).
Proof.
  intros Hc Hy Hp Hn. rewrite acceptV0_run. unfold accepted.
  rewrite Hc, Hy, Hp, Hn. simpl. split; [|split; [reflexivity|split]].
  - intros [H|H]; rewrite H; simpl; now rewrite ?andb_false_r.
  - intros H.
    assert (Hpass : forall t, t = ptrack \/ t = ntrack ->
                      F.gt (tpcNSigmaPi t) (nSigTPC cfg) = false).
    { intros t Ht. destruct (H t Ht) as [Hle|[H0 Hlt]].
      - now apply le_not_gt.
      - now apply (below_opp_not_gt (nSigTPC cfg)). }
    now rewrite (Hpass ptrack), (Hpass ntrack) by auto.
  - intros E. injection E as E.
    destruct (F.gt (tpcNSigmaPi ptrack) _); [now left|].
    destruct (F.gt (tpcNSigmaPi ntrack) _); [now right|discriminate].
Qed.

Lemma acceptV0_pid_upper_bound_only_witness :
  let low := sampleTrack true 7 f_m1e30 in
  let high := sampleTrack true 7 f_10_5 in
  let n := sampleTrack true 7 f_1 in
  acceptV0 defaultConfig (sampleV0 f_0_999 low n) low n (sampleCollision true) ∅
  = Some (true, ∅)
  /\ acceptV0 defaultConfig (sampleV0 f_0_999 high n) high n (sampleCollision true) ∅
     = Some (false, ∅).
Proof.
  intros low high n. split.
  - refine (proj1 (proj2 (proj2
              (acceptV0_pid_upper_bound_only defaultConfig (sampleV0 f_0_999 low n) low n
                 (sampleCollision true) ∅ eq_refl eq_refl eq_refl eq_refl))) _).
    intros t [->| ->]; [right; split; reflexivity | left; reflexivity].
  - exact (proj1 (acceptV0_pid_upper_bound_only defaultConfig (sampleV0 f_0_999 high n)
                    high n (sampleCollision true) ∅ eq_refl eq_refl eq_refl eq_refl)
                 (or_introl eq_refl)).
Defined.

(** C9: [acceptV0] is a pure, deterministic predicate: it leaves the
    registry as it found it, and its result is a function of its
    arguments and of the configuration alone. *)
Theorem acceptV0_pure cfg v0 ptrack ntrack collision :
  exists b : bool, forall r : Registry,
    acceptV0 cfg v0 ptrack ntrack collision r = Some (b, r).
Proof.
  exists (accepted cfg v0 ptrack ntrack collision). intros r. apply acceptV0_run.
Qed.

(** C10: [acceptV0] does not depend on the daughters' ITS columns: inputs
    that differ only in [hasITS] and [itsClusterMap] of the tracks get the
    same answer. *)
Theorem acceptV0_ignores_ITS cfg v0 v0' ptrack ptrack' ntrack ntrack' collision
    (r : Registry) :
  sameV0ButITS v0 v0' -> sameButITS ptrack ptrack' -> sameButITS ntrack ntrack' ->
  acceptV0 cfg v0 ptrack ntrack collision r = acceptV0 cfg v0' ptrack' ntrack' collision r.
Proof.
  intros (Hc & Hy & _) [Hp1 Hp2] [Hn1 Hn2].
  rewrite !acceptV0_run. unfold accepted.
  now rewrite Hc, Hy, Hp1, Hp2, Hn1, Hn2.
Qed.

Lemma acceptV0_ignores_ITS_witness :
  acceptV0 defaultConfig (goodV0 true true) (sampleTrack true 7 f_1) (sampleTrack true 7 f_1)
           (sampleCollision true) ∅
  = acceptV0 defaultConfig (goodV0 false false) (sampleTrack false 0 f_1)
             (sampleTrack false 5 f_1) (sampleCollision true) ∅.
Proof.
  apply acceptV0_ignores_ITS; repeat split; reflexivity.
Defined.

(** ** The registry *)

Lemma init_run : init ∅ = Some (tt, initRegistry).
Proof.
  assert (H : match init ∅ with Some _ => true | None => false end = true)
    by (vm_compute; reflexivity).
  unfold initRegistry. destruct (init ∅) as [[[] r]|]; [reflexivity|discriminate H].
Qed.

Lemma booked_init : booked initRegistry.
Proof. intros name. reflexivity. Qed.

Lemma init_books name : In name histNames -> is_Some (initRegistry !! name).
Proof.
  intros Hin. simpl in Hin.
  repeat (destruct Hin as [<-|Hin]; [eexists; vm_compute; reflexivity|]).
  destruct Hin.
Qed.

Lemma booked_is_Some (r : Registry) name :
  booked r -> In name histNames -> is_Some (r !! name).
Proof.
  intros Hb Hin. specialize (Hb name).
  destruct (init_books name Hin) as [h Hh]. rewrite Hh in Hb. clear Hh.
  destruct (r !! name) as [h'|]; [now exists h'|discriminate].
Qed.

Lemma record_booked (r : Registry) (f : Fill) : booked r -> booked (record r f).
Proof.
  intros Hb name. unfold record. destruct (r !! f.1) as [h|] eqn:E; [|apply Hb].
  rewrite lookup_insert. case_decide as Hd; [|apply Hb].
  subst name. rewrite <- Hb, E. reflexivity.
Qed.

Lemma applyFills_booked (fs : list Fill) (r : Registry) :
  booked r -> booked (applyFills fs r).
Proof.
  revert r. induction fs as [|f fs IH]; intros r Hb; [exact Hb|].
  apply IH, record_booked, Hb.
Qed.

Lemma applyFills_app (fs gs : list Fill) (r : Registry) :
  applyFills (fs ++ gs) r = applyFills gs (applyFills fs r).
Proof. apply fold_left_app. Qed.

Lemma fill_run (r : Registry) name xs :
  is_Some (r !! name) -> fill name xs r = Some (tt, record r (name, xs)).
Proof. intros [h Hh]. unfold fill, record. simpl. now rewrite Hh. Qed.

Lemma bind_fill (r : Registry) name xs (k : Task unit) :
  is_Some (r !! name) -> (fill name xs >>> k) r = k (record r (name, xs)).
Proof. intros H. unfold bind. now rewrite (fill_run _ _ _ H). Qed.

Lemma lookup_record_ne (r : Registry) (f : Fill) name :
  f.1 <> name -> record r f !! name = r !! name.
Proof.
  intros Hne. unfold record. destruct (r !! f.1); [|reflexivity].
  now rewrite lookup_insert_ne.
Qed.

Lemma entriesOf_record (r : Registry) name xs m :
  is_Some (r !! name) ->
  entriesOf (record r (name, xs)) m
  = if String.eqb name m then xs :: entriesOf r m else entriesOf r m.
Proof.
  intros [h Hh]. unfold entriesOf, record. simpl. rewrite Hh.
  rewrite lookup_insert. destruct (String.eqb_spec name m) as [->|Hne].
  - rewrite decide_True by reflexivity. now rewrite Hh.
  - now rewrite decide_False.
Qed.

Lemma entriesOf_applyFills (fs : list Fill) (r : Registry) m :
  booked r -> Forall (fun f : Fill => In f.1 histNames) fs ->
  entriesOf (applyFills fs r) m = rev (fillsTo m fs) ++ entriesOf r m.
Proof.
  revert r. induction fs as [|[name xs] fs IH]; intros r Hb Hn; [reflexivity|].
  inversion Hn as [|? ? Hname Hrest]; subst.
  change (applyFills ((name, xs) :: fs) r) with (applyFills fs (record r (name, xs))).
  rewrite IH by (auto using record_booked).
  rewrite entriesOf_record by (apply booked_is_Some; assumption).
  unfold fillsTo. simpl. destruct (String.eqb name m); simpl; [|reflexivity].
  now rewrite <- app_assoc.
Qed.

Lemma lookup_applyFills_ne (fs : list Fill) (r : Registry) name :
  Forall (fun f : Fill => f.1 <> name) fs -> applyFills fs r !! name = r !! name.
Proof.
  revert r. induction fs as [|f fs IH]; intros r Hn; [reflexivity|].
  inversion Hn; subst. simpl. rewrite IH by assumption. now apply lookup_record_ne.
Qed.

(** ** The trace of [process] *)

Ltac booked_name :=
  apply booked_is_Some; [repeat apply record_booked; assumption | simpl; tauto].

Lemma v0Fills_names cfg collision v0 :
  Forall (fun f : Fill => In f.1 histNames) (v0Fills cfg collision v0).
Proof.
  unfold v0Fills. destruct (accepted _ _ _ _ _); [|constructor].
  destruct (countIB _ _) as [a b].
  repeat (constructor; [simpl; tauto|]). constructor.
Qed.

Lemma processV0_fills cfg collision v0 (r : Registry) :
  booked r ->
  processV0 cfg collision v0 r = Some (tt, applyFills (v0Fills cfg collision v0) r).
Proof.
  intros Hb. unfold processV0, v0Fills. unfold bind at 1. rewrite acceptV0_run.
  destruct (accepted _ _ _ _ _); [|reflexivity].
  destruct (countIB _ _) as [a b].
  repeat (rewrite bind_fill by booked_name).
  rewrite fill_run by booked_name. reflexivity.
Qed.

Lemma flat_map_names {A : Type} (tr : A -> list Fill) (xs : list A) :
  (forall x, Forall (fun f : Fill => In f.1 histNames) (tr x)) ->
  Forall (fun f : Fill => In f.1 histNames) (flat_map tr xs).
Proof.
  intros H. induction xs as [|x xs IH]; simpl; [constructor|].
  apply Forall_app. split; [apply H|exact IH].
Qed.

Lemma forEach_fills {A : Type} (body : A -> Task unit) (tr : A -> list Fill)
    (xs : list A) (r : Registry) :
  (forall x r', booked r' -> body x r' = Some (tt, applyFills (tr x) r')) ->
  booked r ->
  forEach xs body r = Some (tt, applyFills (flat_map tr xs) r).
Proof.
  intros Hbody. revert r. induction xs as [|x xs IH]; intros r Hb; [reflexivity|].
  simpl. unfold bind. rewrite (Hbody x r Hb).
  rewrite IH by (apply applyFills_booked, Hb).
  now rewrite applyFills_app.
Qed.

Lemma eventFills_names cfg ev :
  Forall (fun f : Fill => In f.1 histNames) (eventFills cfg ev).
Proof.
  unfold eventFills. constructor; [simpl; tauto|].
  destruct (_ && _); [constructor|].
  constructor; [simpl; tauto|]. apply flat_map_names, v0Fills_names.
Qed.

Lemma batchFills_names cfg evs :
  Forall (fun f : Fill => In f.1 histNames) (batchFills cfg evs).
Proof. apply flat_map_names, eventFills_names. Qed.

Lemma processEvent_fills cfg ev (r : Registry) :
  booked r ->
  processEvent cfg ev r = Some (tt, applyFills (eventFills cfg ev) r).
Proof.
  intros Hb. unfold processEvent, process, eventFills.
  rewrite bind_fill by booked_name.
  destruct (eventSelection cfg && negb (sel8 (evCollision ev))); [reflexivity|].
  rewrite bind_fill by booked_name.
  rewrite (forEach_fills _ (v0Fills cfg (evCollision ev)))
    by (auto using processV0_fills, record_booked).
  reflexivity.
Qed.

Lemma runBatch_fills cfg evs (r : Registry) :
  booked r ->
  runBatch cfg evs r = Some (tt, applyFills (batchFills cfg evs) r).
Proof.
  intros Hb. unfold runBatch, batchFills.
  apply forEach_fills; [|exact Hb]. intros ev r'. apply processEvent_fills.
Qed.

Lemma runTask_fills cfg evs :
  runTask cfg evs ∅ = Some (tt, applyFills (batchFills cfg evs) initRegistry).
Proof.
  unfold runTask. unfold bind at 1. rewrite init_run.
  apply runBatch_fills, booked_init.
Qed.

(** ** The event counter *)

Lemma init_eventCounter : initRegistry !! "h_EventCounter" = Some eventCounter0.
Proof. vm_compute. reflexivity. Qed.

Lemma booked_eventCounter (r : Registry) :
  booked r ->
  exists h, r !! "h_EventCounter" = Some h
            /\ axes h = [statusAxis]
            /\ binLabels h = [(2, "Selected"); (1, "Total")].
Proof.
  intros Hb. specialize (Hb "h_EventCounter"). rewrite init_eventCounter in Hb.
  destruct (r !! "h_EventCounter") as [h|]; [|discriminate].
  exists h. simpl in Hb. injection Hb as Ha Hl. auto.
Qed.

Lemma inBin_axis (h : Hist) ax bin xs :
  axes h = [ax] -> inBin h bin xs = inAxisBin ax bin xs.
Proof.
  intros Ha. unfold inBin, entryBin, inAxisBin. rewrite Ha. now destruct xs.
Qed.

Lemma binContent_axis (h : Hist) ax bin :
  axes h = [ax] -> binContent h bin = countFills ax bin (entries h).
Proof.
  intros Ha. unfold binContent, countFills. f_equal.
  apply filter_ext. intros xs. now apply inBin_axis.
Qed.

Lemma totalCount_booked (r : Registry) :
  booked r -> totalCount r = countFills statusAxis 1 (entriesOf r "h_EventCounter").
Proof.
  intros Hb. destruct (booked_eventCounter r Hb) as (h & Hh & Ha & Hl).
  unfold totalCount, labelContent, entriesOf, labelBin. rewrite Hh, Hl. simpl.
  now apply binContent_axis.
Qed.

Lemma selectedCount_booked (r : Registry) :
  booked r -> selectedCount r = countFills statusAxis 2 (entriesOf r "h_EventCounter").
Proof.
  intros Hb. destruct (booked_eventCounter r Hb) as (h & Hh & Ha & Hl).
  unfold selectedCount, labelContent, entriesOf, labelBin. rewrite Hh, Hl. simpl.
  now apply binContent_axis.
Qed.

Lemma countFills_rev_app ax bin (new old : list (list F.t)) :
  countFills ax bin (rev new ++ old)
  = (countFills ax bin new + countFills ax bin old)%nat.
Proof.
  unfold countFills. rewrite List.filter_app, length_app. f_equal.
  induction new as [|x new IH]; [reflexivity|].
  simpl rev. rewrite List.filter_app, length_app, IH. simpl.
  destruct (inAxisBin ax bin x); simpl; lia.
Qed.

Lemma fillsTo_app name (fs gs : list Fill) :
  fillsTo name (fs ++ gs) = fillsTo name fs ++ fillsTo name gs.
Proof. unfold fillsTo. now rewrite List.filter_app, map_app. Qed.

Lemma fillsTo_flat_map {A : Type} name (tr : A -> list Fill) (xs : list A) :
  fillsTo name (flat_map tr xs) = flat_map (fun x => fillsTo name (tr x)) xs.
Proof.
  induction xs as [|x xs IH]; [reflexivity|].
  simpl. now rewrite fillsTo_app, IH.
Qed.

Lemma flat_map_nil {A B : Type} (f : A -> list B) (xs : list A) :
  (forall x, f x = []) -> flat_map f xs = [].
Proof.
  intros H. induction xs as [|x xs IH]; [reflexivity|]. simpl. now rewrite H, IH.
Qed.

Lemma v0Fills_counter cfg collision v0 :
  fillsTo "h_EventCounter" (v0Fills cfg collision v0) = [].
Proof.
  unfold v0Fills. destruct (accepted _ _ _ _ _); [|reflexivity].
  now destruct (countIB _ _).
Qed.

Lemma eventFills_counter cfg ev :
  fillsTo "h_EventCounter" (eventFills cfg ev)
  = [f_0] :: (if eventSelection cfg && negb (sel8 (evCollision ev)) then [] else [[f_1]]).
Proof.
  unfold eventFills. destruct (_ && _); [reflexivity|].
  unfold fillsTo at 1. simpl. fold (fillsTo "h_EventCounter"
    (flat_map (v0Fills cfg (evCollision ev)) (evV0s ev))).
  rewrite fillsTo_flat_map, flat_map_nil; [reflexivity|].
  intros v0. apply v0Fills_counter.
Qed.

(** A fill at [0.] lands in bin 1 ("Total"), a fill at [1.] in bin 2
    ("Selected"). *)
Lemma counter_total_only : countFills statusAxis 1 [[f_0]] = 1%nat.
Proof. vm_compute. reflexivity. Qed.

Lemma counter_total_selected : countFills statusAxis 1 [[f_0]; [f_1]] = 1%nat.
Proof. vm_compute. reflexivity. Qed.

Lemma counter_selected_only : countFills statusAxis 2 [[f_0]] = 0%nat.
Proof. vm_compute. reflexivity. Qed.

Lemma counter_selected_selected : countFills statusAxis 2 [[f_0]; [f_1]] = 1%nat.
Proof. vm_compute. reflexivity. Qed.

(** What one event does to the counter. *)
Lemma processEvent_counter cfg ev (r : Registry) :
  booked r ->
  exists r', processEvent cfg ev r = Some (tt, r')
    /\ booked r'
    /\ totalCount r' = S (totalCount r)
    /\ selectedCount r' = (selectedCount r + selectedStep cfg (evCollision ev))%nat.
Proof.
  intros Hb. exists (applyFills (eventFills cfg ev) r).
  assert (Hb' : booked (applyFills (eventFills cfg ev) r)) by now apply applyFills_booked.
  split; [now apply processEvent_fills|]. split; [exact Hb'|].
  rewrite !totalCount_booked, !selectedCount_booked by assumption.
  rewrite entriesOf_applyFills by (auto using eventFills_names).
  rewrite !countFills_rev_app, eventFills_counter. unfold selectedStep.
  destruct (_ && _);
    rewrite ?counter_total_only, ?counter_total_selected,
            ?counter_selected_only, ?counter_selected_selected; lia.
Qed.

Lemma selectedStep_le_1 cfg collision : (selectedStep cfg collision <= 1)%nat.
Proof. unfold selectedStep. destruct (_ && _); lia. Qed.

Lemma counters_init : totalCount initRegistry = 0%nat /\ selectedCount initRegistry = 0%nat.
Proof. split; vm_compute; reflexivity. Qed.

Lemma runBatch_counter cfg evs (r : Registry) :
  booked r ->
  exists r', runBatch cfg evs r = Some (tt, r')
    /\ booked r'
    /\ totalCount r' = (totalCount r + length evs)%nat
    /\ (selectedCount r <= selectedCount r' <= selectedCount r + length evs)%nat.
Proof.
  revert r. induction evs as [|ev evs IH]; intros r Hb.
  - exists r. repeat split; try (simpl; lia). exact Hb.
  - destruct (processEvent_counter cfg ev r Hb) as (r1 & Hrun1 & Hb1 & Ht1 & Hs1).
    destruct (IH r1 Hb1) as (r2 & Hrun2 & Hb2 & Ht2 & Hs2).
    exists r2. unfold runBatch in *. simpl forEach. unfold bind at 1. rewrite Hrun1.
    pose proof (selectedStep_le_1 cfg (evCollision ev)).
    repeat split; try assumption; simpl length; lia.
Qed.

(** C3: over a batch of [length evs] events the "Total" bin goes up by
    exactly [length evs], the "Selected" bin by at most [length evs], and
    "Selected" <= "Total" is preserved; from a freshly initialised task,
    "Total" is the number of events and "Selected" <= "Total". *)
Theorem event_counter_batch cfg evs :
  (forall r : Registry, booked r ->
     exists r', runBatch cfg evs r = Some (tt, r')
       /\ totalCount r' = (totalCount r + length evs)%nat
       /\ (selectedCount r <= selectedCount r' <= selectedCount r + length evs)%nat
       /\ ((selectedCount r <= totalCount r)%nat -> (selectedCount r' <= totalCount r')%nat))
  /\ (exists r', runTask cfg evs ∅ = Some (tt, r')
       /\ totalCount r' = length evs
       /\ (selectedCount r' <= totalCount r')%nat).
Proof.
  split.
  - intros r Hb. destruct (runBatch_counter cfg evs r Hb) as (r' & Hrun & _ & Ht & Hs).
    exists r'. repeat split; try assumption; lia.
  - destruct (runBatch_counter cfg evs initRegistry booked_init) as (r' & Hrun & _ & Ht & Hs).
    destruct counters_init as [Ht0 Hs0]. rewrite Ht0 in Ht. rewrite Hs0 in Hs.
    exists r'. unfold runTask. unfold bind at 1. rewrite init_run.
    repeat split; try assumption; lia.
Qed.

Lemma event_counter_batch_witness :
  exists r', runBatch defaultConfig [emptyEvent true; emptyEvent false; emptyEvent true]
                      initRegistry = Some (tt, r')
    /\ totalCount r' = 3%nat /\ (selectedCount r' <= 3)%nat.
Proof.
  destruct (proj1 (event_counter_batch defaultConfig
                     [emptyEvent true; emptyEvent false; emptyEvent true])
                  initRegistry booked_init) as (r' & Hrun & Ht & Hs & _).
  exists r'. destruct counters_init as [Ht0 Hs0]. rewrite Ht0 in Ht. rewrite Hs0 in Hs.
  repeat split; [exact Hrun|exact Ht|exact (proj2 Hs)].
Defined.

(** C4, as stated, fails: with the event selection switched off, an event
    whose [sel8] flag is false is counted in "Selected". *)
Lemma selected_counts_unselected_event :
  sel8 (evCollision (emptyEvent false)) = false
  /\ exists r', processEvent noSelectionConfig (emptyEvent false) initRegistry = Some (tt, r')
       /\ selectedCount r' = S (selectedCount initRegistry).
Proof.
  split; [reflexivity|].
  destruct (processEvent_counter noSelectionConfig (emptyEvent false) initRegistry booked_init)
    as (r' & Hrun & _ & _ & Hs).
  exists r'. split; [exact Hrun|]. rewrite Hs. unfold selectedStep. simpl. lia.
Qed.

(** C4 (amended): the "Selected" bin goes up, by one, exactly for the
    events that pass [sel8] or are processed with the event selection
    switched off; with the event selection on (the default), an event
    whose [sel8] flag is false leaves "Selected" as it was. *)
Theorem selected_iff_passing_or_unfiltered cfg ev (r : Registry) :
  booked r ->
  exists r', processEvent cfg ev r = Some (tt, r')
    /\ (eventSelection cfg = true -> sel8 (evCollision ev) = false ->
        selectedCount r' = selectedCount r)
    /\ (eventSelection cfg = false \/ sel8 (evCollision ev) = true ->
        selectedCount r' = S (selectedCount r)).
Proof.
  intros Hb. destruct (processEvent_counter cfg ev r Hb) as (r' & Hrun & _ & _ & Hs).
  exists r'. split; [exact Hrun|]. unfold selectedStep in Hs. split.
  - intros He Hq. rewrite He, Hq in Hs. simpl in Hs. lia.
  - intros [He|Hq]; [rewrite He in Hs|rewrite Hq, andb_false_r in Hs]; simpl in Hs; lia.
Qed.

Lemma selected_iff_passing_or_unfiltered_witness :
  exists r', processEvent defaultConfig (emptyEvent false) initRegistry = Some (tt, r')
    /\ selectedCount r' = selectedCount initRegistry.
Proof.
  destruct (selected_iff_passing_or_unfiltered defaultConfig (emptyEvent false)
              initRegistry booked_init) as (r' & Hrun & Hoff & _).
  exists r'. split; [exact Hrun|exact (Hoff eq_refl eq_refl)].
Defined.

(** C5: with the event selection on, an event that fails [sel8] is
    processed as the single fill of the "Total" bin, whatever its V0s: no
    other histogram changes and the "Selected" bin stays as it was. *)
Theorem rejected_event_only_total cfg collision fullV0s tracks (r : Registry) :
  eventSelection cfg = true -> sel8 collision = false -> booked r ->
  process cfg collision fullV0s tracks r = fill "h_EventCounter" [f_0] r
  /\ exists r', process cfg collision fullV0s tracks r = Some (tt, r')
       /\ (forall name, name <> "h_EventCounter" -> r' !! name = r !! name)
       /\ entriesOf r' "h_EventCounter" = [f_0] :: entriesOf r "h_EventCounter"
       /\ totalCount r' = S (totalCount r)
       /\ selectedCount r' = selectedCount r.
Proof.
  intros He Hq Hb.
  assert (Hrun : process cfg collision fullV0s tracks r
                 = Some (tt, record r ("h_EventCounter", [f_0]))).
  { unfold process. rewrite bind_fill by booked_name. now rewrite He, Hq. }
  split; [now rewrite Hrun, fill_run by booked_name|].
  exists (record r ("h_EventCounter", [f_0])). split; [exact Hrun|].
  assert (Hb' : booked (record r ("h_EventCounter", [f_0]))) by now apply record_booked.
  assert (He' : entriesOf (record r ("h_EventCounter", [f_0])) "h_EventCounter"
                = [f_0] :: entriesOf r "h_EventCounter")
    by (rewrite entriesOf_record by booked_name; reflexivity).
  split; [|split; [exact He'|]].
  - intros name Hne. apply lookup_record_ne. simpl. congruence.
  - rewrite !totalCount_booked, !selectedCount_booked, He' by assumption.
    change ([f_0] :: ?l) with (rev [[f_0]] ++ l).
    rewrite !countFills_rev_app, counter_total_only, counter_selected_only. lia.
Qed.

Lemma rejected_event_only_total_witness :
  process defaultConfig (sampleCollision false) [goodV0 true true] [] initRegistry
  = fill "h_EventCounter" [f_0] initRegistry.
Proof.
  exact (proj1 (rejected_event_only_total defaultConfig (sampleCollision false)
                  [goodV0 true true] [] initRegistry eq_refl eq_refl booked_init)).
Defined.

(** ** Inner-barrel hits *)

Lemma land_bit (m i : Z) :
  0 <= i -> negb (Z.land m (Z.shiftl 1 i) =? 0) = Z.testbit m i.
Proof.
  intros Hi. rewrite Z.shiftl_1_l.
  assert (E : Z.land m (2 ^ i) = if Z.testbit m i then 2 ^ i else 0).
  { apply Z.bits_inj'. intros k Hk. rewrite Z.land_spec, Z.pow2_bits_eqb by assumption.
    destruct (Z.eqb_spec i k) as [->|Hne].
    - destruct (Z.testbit m k); [|now rewrite Z.bits_0].
      now rewrite Z.pow2_bits_eqb, Z.eqb_refl.
    - rewrite andb_false_r. destruct (Z.testbit m i); [|now rewrite Z.bits_0].
      rewrite Z.pow2_bits_eqb by assumption. symmetry. now apply Z.eqb_neq. }
  rewrite E. destruct (Z.testbit m i); [|reflexivity].
  apply negb_true_iff, Z.eqb_neq. apply Z.pow_nonzero; lia.
Qed.

Lemma countIB_innerBits (negMap posMap : Z) :
  countIB negMap posMap = (innerBits negMap, innerBits posMap).
Proof.
  unfold countIB, innerBits. cbn [fold_left ibStep].
  rewrite !land_bit by lia.
  destruct (Z.testbit negMap 0), (Z.testbit negMap 1), (Z.testbit negMap 2),
           (Z.testbit posMap 0), (Z.testbit posMap 1), (Z.testbit posMap 2);
    reflexivity.
Qed.

Lemma innerBits_range (m : Z) : 0 <= innerBits m <= 3.
Proof.
  unfold innerBits.
  destruct (Z.testbit m 0), (Z.testbit m 1), (Z.testbit m 2); simpl; lia.
Qed.

Lemma int_to_bool_innerBits (m : Z) : int_to_bool (innerBits m) = (0 <? innerBits m).
Proof.
  unfold int_to_bool. pose proof (innerBits_range m).
  destruct (Z.eqb_spec (innerBits m) 0), (Z.ltb_spec 0 (innerBits m)); simpl; lia || reflexivity.
Qed.

Lemma v0Fills_accepted cfg collision v0 :
  accepted cfg v0 (posTrack v0) (negTrack v0) collision = true ->
  v0Fills cfg collision v0 = acceptedFills v0.
Proof.
  intros H. unfold v0Fills, acceptedFills. rewrite H, countIB_innerBits.
  now rewrite !int_to_bool_innerBits.
Qed.

Lemma acceptedFills_names v0 :
  Forall (fun f : Fill => In f.1 histNames) (acceptedFills v0).
Proof. unfold acceptedFills. repeat (constructor; [simpl; tauto|]). constructor. Qed.

(** What an accepted candidate adds to a histogram. *)
Lemma processV0_accepted cfg collision v0 (r : Registry) :
  booked r ->
  acceptV0 cfg v0 (posTrack v0) (negTrack v0) collision r = Some (true, r) ->
  exists r', processV0 cfg collision v0 r = Some (tt, r')
    /\ booked r'
    /\ forall name,
         entriesOf r' name = rev (fillsTo name (acceptedFills v0)) ++ entriesOf r name.
Proof.
  intros Hb Hacc. rewrite acceptV0_run in Hacc. injection Hacc as Hacc.
  exists (applyFills (acceptedFills v0) r).
  rewrite <- (v0Fills_accepted cfg collision v0 Hacc) at 1.
  split; [now apply processV0_fills|]. split; [now apply applyFills_booked|].
  intros name. apply entriesOf_applyFills; [exact Hb|apply acceptedFills_names].
Qed.

(** C7: for an accepted candidate the hit counts sent to [h_negIBhits]
    and [h_posIBhits] are the numbers of set bits among bits 0, 1 and 2 of
    the daughter's cluster map, between 0 and 3 (2 for the map with bits 0
    and 1 set, 0 for the empty map), and the flags sent to [h_negIBStatus]
    and [h_posIBStatus] say whether that count is positive. *)
Theorem inner_barrel_hits cfg collision v0 (r : Registry) :
  booked r ->
  acceptV0 cfg v0 (posTrack v0) (negTrack v0) collision r = Some (true, r) ->
  let negHits := innerBits (itsClusterMap (negTrack v0)) in
  let posHits := innerBits (itsClusterMap (posTrack v0)) in
  countIB (itsClusterMap (negTrack v0)) (itsClusterMap (posTrack v0)) = (negHits, posHits)
  /\ 0 <= negHits <= 3 /\ 0 <= posHits <= 3
  /\ int_to_bool negHits = (0 <? negHits) /\ int_to_bool posHits = (0 <? posHits)
  /\ countIB 3 0 = (2, 0)
  /\ exists r', processV0 cfg collision v0 r = Some (tt, r')
       /\ entriesOf r' "Test/h_negIBhits" = [F.of_int negHits] :: entriesOf r "Test/h_negIBhits"
       /\ entriesOf r' "Test/h_posIBhits" = [F.of_int posHits] :: entriesOf r "Test/h_posIBhits"
       /\ entriesOf r' "Test/h_negIBStatus"
          = [F.of_bool (0 <? negHits)] :: entriesOf r "Test/h_negIBStatus"
       /\ entriesOf r' "Test/h_posIBStatus"
          = [F.of_bool (0 <? posHits)] :: entriesOf r "Test/h_posIBStatus".
Proof.
  intros Hb Hacc negHits posHits.
  split; [apply countIB_innerBits|].
  split; [apply innerBits_range|]. split; [apply innerBits_range|].
  split; [apply int_to_bool_innerBits|]. split; [apply int_to_bool_innerBits|].
  split; [reflexivity|].
  destruct (processV0_accepted cfg collision v0 r Hb Hacc) as (r' & Hrun & _ & He).
  exists r'. split; [exact Hrun|]. rewrite !He. repeat split; reflexivity.
Qed.

Lemma inner_barrel_hits_witness :
  let v0 := sampleV0 f_0_999 (sampleTrack true 0 f_1) (sampleTrack true 3 f_1) in
  countIB (itsClusterMap (negTrack v0)) (itsClusterMap (posTrack v0)) = (2, 0).
Proof.
  intros v0.
  exact (proj1 (inner_barrel_hits defaultConfig (sampleCollision true) v0 initRegistry
                  booked_init eq_refl)).
Defined.

(** ** ITS status *)

Lemma eventFills_other cfg ev name :
  String.eqb "h_EventCounter" name = false ->
  fillsTo name (eventFills cfg ev)
  = if eventSelection cfg && negb (sel8 (evCollision ev)) then []
    else flat_map (fun v0 => fillsTo name (v0Fills cfg (evCollision ev) v0)) (evV0s ev).
Proof.
  intros Hne. unfold eventFills, fillsTo at 1. cbn [List.filter fst]. rewrite Hne.
  destruct (_ && _); [reflexivity|].
  cbn [List.filter fst]. rewrite Hne. apply fillsTo_flat_map.
Qed.

Lemma flat_map_pointwise {A B : Type} (f g : A -> list B) (xs : list A) :
  (forall x, f x = g x) -> flat_map f xs = flat_map g xs.
Proof.
  intros H. induction xs as [|x xs IH]; [reflexivity|]. simpl. now rewrite H, IH.
Qed.

Lemma Forall_flat_map_intro {A B : Type} (P : B -> Prop) (f : A -> list B) (xs : list A) :
  (forall x, Forall P (f x)) -> Forall P (flat_map f xs).
Proof.
  intros H. induction xs as [|x xs IH]; simpl; [constructor|].
  apply Forall_app. split; [apply H|exact IH].
Qed.

Lemma v0Fills_ITS_same cfg collision v0 :
  fillsTo "Test/h_negITSStatus" (v0Fills cfg collision v0)
  = fillsTo "Test/h_posITSStatus" (v0Fills cfg collision v0).
Proof.
  unfold v0Fills. destruct (accepted _ _ _ _ _); [|reflexivity].
  now destruct (countIB _ _).
Qed.

Lemma v0Fills_ITS_diagonal cfg collision v0 :
  Forall statusDiagonal (fillsTo "h5_RpTmassITSStatus" (v0Fills cfg collision v0)).
Proof.
  unfold v0Fills. destruct (accepted _ _ _ _ _); [|constructor].
  destruct (countIB _ _). repeat constructor.
Qed.

Lemma batchFills_ITS_same cfg evs :
  fillsTo "Test/h_negITSStatus" (batchFills cfg evs)
  = fillsTo "Test/h_posITSStatus" (batchFills cfg evs).
Proof.
  unfold batchFills. rewrite !fillsTo_flat_map. apply flat_map_pointwise. intros ev.
  rewrite !eventFills_other by reflexivity.
  destruct (_ && _); [reflexivity|].
  apply flat_map_pointwise. intros v0. apply v0Fills_ITS_same.
Qed.

Lemma batchFills_ITS_diagonal cfg evs :
  Forall statusDiagonal (fillsTo "h5_RpTmassITSStatus" (batchFills cfg evs)).
Proof.
  unfold batchFills. rewrite fillsTo_flat_map. apply Forall_flat_map_intro. intros ev.
  rewrite eventFills_other by reflexivity.
  destruct (_ && _); [constructor|].
  apply Forall_flat_map_intro. intros v0. apply v0Fills_ITS_diagonal.
Qed.

Lemma entriesOf_init name : entriesOf initRegistry name = [].
Proof.
  unfold entriesOf. destruct (initRegistry !! name) as [h|] eqn:E; [|reflexivity].
  assert (Hall : map_Forall (fun _ h => entries h = []) initRegistry)
    by (apply map_Forall_to_list; vm_compute; repeat constructor).
  exact (Hall name h E).
Qed.

(** C2: for an accepted candidate the values sent to [h_negITSStatus] and
    to [h_posITSStatus], and the fourth and fifth coordinates sent to
    [h5_RpTmassITSStatus], are all the negative daughter's [hasITS] flag;
    the positive daughter's flag is not read; so, over any run, the two 1D
    histograms hold the same values and every fill of the 5D histogram has
    equal fourth and fifth coordinates. *)
Theorem its_status_from_negative_track cfg :
  (forall collision v0 (r : Registry),
     booked r ->
     acceptV0 cfg v0 (posTrack v0) (negTrack v0) collision r = Some (true, r) ->
     let its := F.of_bool (hasITS (negTrack v0)) in
     exists r', processV0 cfg collision v0 r = Some (tt, r')
       /\ entriesOf r' "Test/h_negITSStatus" = [its] :: entriesOf r "Test/h_negITSStatus"
       /\ entriesOf r' "Test/h_posITSStatus" = [its] :: entriesOf r "Test/h_posITSStatus"
       /\ entriesOf r' "h5_RpTmassITSStatus"
          = [v0radius v0; pt v0; mK0Short v0; its; its] :: entriesOf r "h5_RpTmassITSStatus")
  /\ (forall collision v0 b (r : Registry),
        processV0 cfg collision (withPosHasITS v0 b) r = processV0 cfg collision v0 r)
  /\ (forall evs,
        exists r', runTask cfg evs ∅ = Some (tt, r')
          /\ entriesOf r' "Test/h_negITSStatus" = entriesOf r' "Test/h_posITSStatus"
          /\ Forall statusDiagonal (entriesOf r' "h5_RpTmassITSStatus")).
Proof.
  split; [|split].
  - intros collision v0 r Hb Hacc its.
    destruct (processV0_accepted cfg collision v0 r Hb Hacc) as (r' & Hrun & _ & He).
    exists r'. split; [exact Hrun|]. rewrite !He. repeat split; reflexivity.
  - intros collision v0 b r. reflexivity.
  - intros evs. exists (applyFills (batchFills cfg evs) initRegistry).
    split; [apply runTask_fills|].
    rewrite !entriesOf_applyFills by (auto using booked_init, batchFills_names).
    rewrite !entriesOf_init, !app_nil_r. split.
    + now rewrite batchFills_ITS_same.
    + apply Forall_rev, batchFills_ITS_diagonal.
Qed.

Lemma its_status_from_negative_track_witness :
  exists r', processV0 defaultConfig (sampleCollision true) (goodV0 false true) initRegistry
             = Some (tt, r')
    /\ entriesOf r' "Test/h_negITSStatus" = [[f_0]]
    /\ entriesOf r' "Test/h_posITSStatus" = [[f_0]].
Proof.
  destruct (proj1 (its_status_from_negative_track defaultConfig)
              (sampleCollision true) (goodV0 false true) initRegistry booked_init eq_refl)
    as (r' & Hrun & Hn & Hp & _).
  exists r'. rewrite !entriesOf_init in *. repeat split; assumption.
Defined.

(** ** End to end *)

Lemma process_single_accepted cfg collision v0 tracks (r : Registry) :
  booked r -> sel8 collision = true ->
  accepted cfg v0 (posTrack v0) (negTrack v0) collision = true ->
  exists r', process cfg collision [v0] tracks r = Some (tt, r')
    /\ forall name, String.eqb "h_EventCounter" name = false ->
         entriesOf r' name = rev (fillsTo name (acceptedFills v0)) ++ entriesOf r name.
Proof.
  intros Hb Hq Hacc.
  pose (ev := singleV0Event collision v0 tracks).
  exists (applyFills (eventFills cfg ev) r).
  split; [exact (processEvent_fills cfg ev r Hb)|].
  intros name Hne.
  rewrite entriesOf_applyFills by (auto using eventFills_names).
  rewrite eventFills_other by exact Hne.
  cbn [ev singleV0Event evCollision evV0s flat_map].
  rewrite Hq, andb_false_r, app_nil_r. now rewrite (v0Fills_accepted _ _ _ Hacc).
Qed.

(** C6, as stated, fails: the scenario does not fix the daughters'
    [hasITS] flags, and when the negative daughter's flag is false the
    fill of [h5_RpTmassITSStatus] ends in (false, false). *)
Lemma end_to_end_negative_without_ITS :
  let v0 := goodV0 false true in
  acceptV0 defaultConfig v0 (posTrack v0) (negTrack v0) (sampleCollision true) initRegistry
  = Some (true, initRegistry)
  /\ itsClusterMap (posTrack v0) = 7 /\ itsClusterMap (negTrack v0) = 7
  /\ exists r', process defaultConfig (sampleCollision true) [v0] [] initRegistry = Some (tt, r')
       /\ entriesOf r' "h5_RpTmassITSStatus"
          = [[v0radius v0; pt v0; mK0Short v0; F.of_bool false; F.of_bool false]]
       /\ F.of_bool false <> F.of_bool true.
Proof.
  intros v0. split; [reflexivity|]. split; [reflexivity|]. split; [reflexivity|].
  destruct (process_single_accepted defaultConfig (sampleCollision true) v0 []
              initRegistry booked_init eq_refl eq_refl) as (r' & Hrun & He).
  exists r'. split; [exact Hrun|]. rewrite He by reflexivity. rewrite entriesOf_init.
  split; [reflexivity|discriminate].
Qed.

(** C6 (amended): under the default cuts, for an event with [sel8] true
    and exactly one candidate with cosPA 0.999, rapidity 0.1, a TPC hit and
    PID deviation 1 on both daughters, cluster map 0b111 on both daughters
    and [hasITS] true on the negative daughter, [acceptV0] returns true and
    each of the two 5D histograms receives exactly one fill, with
    coordinates (radius, pT, mass, true, true). *)
Theorem end_to_end cfg collision v0 tracks (r : Registry) :
  v0cospa cfg = default_v0cospa -> rapidity cfg = default_rapidity ->
  nSigTPC cfg = default_nSigTPC ->
  sel8 collision = true ->
  (let cospa := v0cosPA v0 (posX collision) (posY collision) (posZ collision) in
   cospa = f_0_999 \/ cospa = f32_0_999) ->
  (yK0Short v0 = f_0_1 \/ yK0Short v0 = f32_0_1) ->
  hasTPC (posTrack v0) = true -> hasTPC (negTrack v0) = true ->
  tpcNSigmaPi (posTrack v0) = f_1 -> tpcNSigmaPi (negTrack v0) = f_1 ->
  itsClusterMap (posTrack v0) = 7 -> itsClusterMap (negTrack v0) = 7 ->
  hasITS (negTrack v0) = true ->
  booked r ->
  acceptV0 cfg v0 (posTrack v0) (negTrack v0) collision r = Some (true, r)
  /\ exists r', process cfg collision [v0] tracks r = Some (tt, r')
       /\ entriesOf r' "h5_RpTmassITSStatus"
          = [v0radius v0; pt v0; mK0Short v0; F.of_bool true; F.of_bool true]
            :: entriesOf r "h5_RpTmassITSStatus"
       /\ entriesOf r' "h5_RpTmassIBStatus"
          = [v0radius v0; pt v0; mK0Short v0; F.of_bool true; F.of_bool true]
            :: entriesOf r "h5_RpTmassIBStatus".
Proof.
  intros Hc Hy Hn Hq Hcos Hrap Hpt Hnt Hps Hns Hpm Hnm Hits Hb.
  assert (Hacc : accepted cfg v0 (posTrack v0) (negTrack v0) collision = true).
  { unfold accepted. rewrite Hc, Hy, Hn, Hpt, Hnt, Hps, Hns.
    destruct Hcos as [-> | ->], Hrap as [-> | ->]; reflexivity. }
  split; [now rewrite acceptV0_run, Hacc|].
  destruct (process_single_accepted cfg collision v0 tracks r Hb Hq Hacc) as (r' & Hrun & He).
  exists r'. split; [exact Hrun|]. rewrite !He by reflexivity.
  unfold acceptedFills. rewrite Hits, Hpm, Hnm. split; reflexivity.
Qed.

Lemma end_to_end_witness :
  let v0 := goodV0 true true in
  exists r', process defaultConfig (sampleCollision true) [v0] [] initRegistry = Some (tt, r')
    /\ entriesOf r' "h5_RpTmassITSStatus" = [[f_2_5; f_1; f_0_497; f_1; f_1]]
    /\ entriesOf r' "h5_RpTmassIBStatus" = [[f_2_5; f_1; f_0_497; f_1; f_1]].
Proof.
  intros v0.
  destruct (end_to_end defaultConfig (sampleCollision true) v0 [] initRegistry
              eq_refl eq_refl eq_refl eq_refl (or_introl eq_refl) (or_introl eq_refl)
              eq_refl eq_refl eq_refl eq_refl eq_refl eq_refl eq_refl booked_init)
    as (_ & r' & Hrun & Hi & Hb).
  exists r'. rewrite entriesOf_init in Hi, Hb. repeat split; assumption.
Defined.

(** * Further properties of the task *)

(** ** The selection predicate on every input *)

(** X1: Whenever the four conditions of the specification hold, NaN or not,
    the candidate is accepted; whenever one of the four rejection tests of
    the source fires, whatever the other fields are, it is rejected. *)
Theorem acceptV0_sufficient cfg v0 ptrack ntrack collision (r : Registry) :
  (acceptV0_spec cfg v0 ptrack ntrack collision = true ->
   acceptV0 cfg v0 ptrack ntrack collision r = Some (true, r))
  /\ (F.lt (v0cosPA v0 (posX collision) (posY collision) (posZ collision)) (v0cospa cfg) = true
      \/ F.gt (F.abs (yK0Short v0)) (rapidity cfg) = true
      \/ hasTPC ptrack = false \/ hasTPC ntrack = false
      \/ F.gt (tpcNSigmaPi ptrack) (nSigTPC cfg) = true
      \/ F.gt (tpcNSigmaPi ntrack) (nSigTPC cfg) = true ->
      acceptV0 cfg v0 ptrack ntrack collision r = Some (false, r)).
Proof.
  rewrite acceptV0_run. unfold accepted, acceptV0_spec. split.
  - intros H. rewrite !andb_true_iff in H.
    destruct H as [[[Hcos Hrap] [Hp Hn]] [Htp Htn]].
    rewrite (ge_not_lt _ _ Hcos), (le_not_gt _ _ Hrap), Hp, Hn,
      (le_not_gt _ _ Htp), (le_not_gt _ _ Htn). reflexivity.
  - intros H. f_equal. f_equal.
    destruct H as [H|[H|[H|[H|[H|H]]]]]; rewrite H; simpl;
      rewrite ?andb_false_r; reflexivity.
Qed.

Lemma acceptV0_sufficient_witness :
  acceptV0 defaultConfig badV0 (posTrack badV0) (negTrack badV0) (sampleCollision true) ∅
  = Some (false, ∅).
Proof.
  exact (proj2 (acceptV0_sufficient defaultConfig badV0 (posTrack badV0) (negTrack badV0)
                  (sampleCollision true) ∅) (or_introl eq_refl)).
Defined.

Lemma lt_cutOff (x threshold : F.t) : cutOff x threshold = true -> F.lt x threshold = false.
Proof.
  unfold cutOff. destruct x, threshold; simpl; intros H; try discriminate H; reflexivity.
Qed.

Lemma gt_cutOff (x threshold : F.t) : cutOff x threshold = true -> F.gt x threshold = false.
Proof.
  unfold cutOff. destruct x, threshold; simpl; intros H; try discriminate H; reflexivity.
Qed.

(** X2: NaN never rejects: when, for each of the three numerical cuts, the
    measured value or its threshold is NaN, the decision is left to the
    TPC flags of the two daughters. *)
Theorem acceptV0_nan_cuts_off cfg v0 ptrack ntrack collision (r : Registry) :
  cutOff (v0cosPA v0 (posX collision) (posY collision) (posZ collision)) (v0cospa cfg) = true ->
  cutOff (yK0Short v0) (rapidity cfg) = true ->
  cutOff (tpcNSigmaPi ptrack) (nSigTPC cfg) = true ->
  cutOff (tpcNSigmaPi ntrack) (nSigTPC cfg) = true ->
  acceptV0 cfg v0 ptrack ntrack collision r = Some (hasTPC ptrack && hasTPC ntrack, r).
Proof.
  intros Hc Hy Hp Hn. rewrite acceptV0_run. unfold accepted.
  assert (Hy' : cutOff (F.abs (yK0Short v0)) (rapidity cfg) = true)
    by (unfold cutOff in *; now rewrite is_nan_abs).
  rewrite (lt_cutOff _ _ Hc), (gt_cutOff _ _ Hy'), (gt_cutOff _ _ Hp), (gt_cutOff _ _ Hn).
  simpl. now rewrite andb_true_r.
Qed.

Lemma acceptV0_nan_cuts_off_witness :
  let t := sampleTrack false 0 S754_nan in
  let v0 := withRapidity (sampleV0 S754_nan t t) S754_nan in
  acceptV0 defaultConfig v0 t t (sampleCollision true) ∅ = Some (true, ∅).
Proof.
  intros t v0.
  exact (acceptV0_nan_cuts_off defaultConfig v0 t t (sampleCollision true) ∅
           eq_refl eq_refl eq_refl eq_refl).
Defined.

(** X3: The rapidity cut is symmetric: a candidate and its mirror image in
    rapidity get the same answer. *)
Theorem acceptV0_rapidity_sign cfg v0 ptrack ntrack collision (r : Registry) :
  acceptV0 cfg (withRapidity v0 (F.opp (yK0Short v0))) ptrack ntrack collision r
  = acceptV0 cfg v0 ptrack ntrack collision r.
Proof.
  rewrite !acceptV0_run. unfold accepted. simpl.
  assert (E : F.abs (F.opp (yK0Short v0)) = F.abs (yK0Short v0))
    by (destruct (yK0Short v0); reflexivity).
  now rewrite E.
Qed.

(** X4: The daughter cuts are symmetric: exchanging the positive and the
    negative track does not change the answer. *)
Theorem acceptV0_swap_daughters cfg v0 ptrack ntrack collision (r : Registry) :
  acceptV0 cfg v0 ntrack ptrack collision r = acceptV0 cfg v0 ptrack ntrack collision r.
Proof.
  rewrite !acceptV0_run. unfold accepted.
  rewrite (andb_comm (hasTPC ntrack)),
    (andb_comm (negb (F.gt (tpcNSigmaPi ntrack) (nSigTPC cfg)))).
  reflexivity.
Qed.

(** ** Inner-barrel hits and the low bits of the cluster map *)

Lemma bit_of_7 (i : Z) : 0 <= i <= 2 -> Z.testbit 7 i = true.
Proof. intros H. assert (i = 0 \/ i = 1 \/ i = 2) as [->|[->| ->]] by lia; reflexivity. Qed.

Lemma innerBits_land_7 (m : Z) : innerBits (Z.land m 7) = innerBits m.
Proof.
  unfold innerBits. rewrite !Z.land_spec, !bit_of_7 by lia. now rewrite !andb_true_r.
Qed.

Lemma land_7_bits (m : Z) :
  Z.land m 7
  = Z.b2z (Z.testbit m 0) + 2 * Z.b2z (Z.testbit m 1) + 4 * Z.b2z (Z.testbit m 2).
Proof.
  apply Z.bits_inj'. intros k Hk. rewrite Z.land_spec.
  assert (Hcase : k = 0 \/ k = 1 \/ k = 2 \/ 3 <= k) by lia.
  destruct Hcase as [->|[->|[->|Hhigh]]].
  - destruct (Z.testbit m 0), (Z.testbit m 1), (Z.testbit m 2); reflexivity.
  - destruct (Z.testbit m 0), (Z.testbit m 1), (Z.testbit m 2); reflexivity.
  - destruct (Z.testbit m 0), (Z.testbit m 1), (Z.testbit m 2); reflexivity.
  - rewrite (Z.bits_above_log2 7 k) by (simpl; lia). rewrite andb_false_r.
    symmetry.
    destruct (Z.testbit m 0), (Z.testbit m 1), (Z.testbit m 2); simpl Z.add;
      try apply Z.bits_0; apply Z.bits_above_log2; simpl; lia.
Qed.

(** X5: Only the three lowest bits of a cluster map count: the outer layers
    change neither the hit counts nor the flags; a daughter has an
    inner-barrel hit exactly when [map & 0b111] is not zero, and three
    hits exactly when [map & 0b111] is [0b111]. *)
Theorem countIB_low_bits (negMap posMap : Z) :
  countIB negMap posMap = countIB (Z.land negMap 7) (Z.land posMap 7)
  /\ int_to_bool (fst (countIB negMap posMap)) = negb (Z.land negMap 7 =? 0)
  /\ int_to_bool (snd (countIB negMap posMap)) = negb (Z.land posMap 7 =? 0)
  /\ (fst (countIB negMap posMap) = 3 <-> Z.land negMap 7 = 7)
  /\ (snd (countIB negMap posMap) = 3 <-> Z.land posMap 7 = 7).
Proof.
  rewrite !countIB_innerBits, !innerBits_land_7. cbn [fst snd].
  split; [reflexivity|].
  unfold int_to_bool. rewrite !land_7_bits. unfold innerBits.
  repeat split;
    destruct (Z.testbit negMap 0), (Z.testbit negMap 1), (Z.testbit negMap 2),
             (Z.testbit posMap 0), (Z.testbit posMap 1), (Z.testbit posMap 2);
    simpl; try reflexivity; intros; lia.
Qed.

(** ** Whole runs *)

Lemma forEach_app {A : Type} (xs ys : list A) (body : A -> Task unit) (r : Registry) :
  forEach (xs ++ ys) body r = (forEach xs body >>> forEach ys body) r.
Proof.
  revert r. induction xs as [|x xs IH]; intros r; [reflexivity|].
  simpl. unfold bind. destruct (body x r) as [[[] r1]|]; [|reflexivity].
  rewrite IH. reflexivity.
Qed.

(** Processing is incremental: a batch made of two parts is processed as
    the first part followed by the second, on any registry, failures
    included. *)
Theorem runBatch_app cfg evs1 evs2 (r : Registry) :
  runBatch cfg (evs1 ++ evs2) r = (runBatch cfg evs1 >>> runBatch cfg evs2) r.
Proof. apply forEach_app. Qed.

Lemma init_lookup_names name (h : Hist) :
  initRegistry !! name = Some h -> In name histNames.
Proof.
  assert (Hall : map_Forall (fun name _ => existsb (String.eqb name) histNames = true)
                            initRegistry).
  { apply map_Forall_to_list. vm_compute. repeat constructor. }
  intros Hh. apply Hall in Hh. apply existsb_exists in Hh.
  destruct Hh as (name' & Hin & Heq). apply String.eqb_eq in Heq. now subst name'.
Qed.

(** X7: From a fresh registry, [init] followed by any batch never fails, and
    the registry it leaves holds exactly the twelve histograms of [init],
    with the axes and labels [init] gave them: [process] only fills
    histograms that were booked, and never books, removes or relabels one. *)
Theorem runTask_succeeds cfg evs :
  exists r', runTask cfg evs ∅ = Some (tt, r')
    /\ booked r'
    /\ forall name, is_Some (r' !! name) <-> In name histNames.
Proof.
  exists (applyFills (batchFills cfg evs) initRegistry).
  assert (Hb : booked (applyFills (batchFills cfg evs) initRegistry))
    by apply applyFills_booked, booked_init.
  split; [apply runTask_fills|]. split; [exact Hb|].
  intros name. split.
  - intros [h Hh]. specialize (Hb name). rewrite Hh in Hb.
    destruct (initRegistry !! name) as [h0|] eqn:E; [|discriminate].
    now apply (init_lookup_names name h0).
  - now apply booked_is_Some.
Qed.

Lemma v0Fills_cases cfg collision v0 :
  v0Fills cfg collision v0
  = if accepted cfg v0 (posTrack v0) (negTrack v0) collision then acceptedFills v0 else [].
Proof.
  destruct (accepted cfg v0 (posTrack v0) (negTrack v0) collision) eqn:E.
  - now apply v0Fills_accepted.
  - unfold v0Fills. now rewrite E.
Qed.

Lemma flat_map_filter {A B : Type} (p : A -> bool) (f : A -> list B) (xs : list A) :
  flat_map (fun x => if p x then f x else []) xs = flat_map f (List.filter p xs).
Proof.
  induction xs as [|x xs IH]; [reflexivity|].
  simpl. destruct (p x); simpl; now rewrite IH.
Qed.

(** What a batch sends to a per-candidate histogram: the fills of its
    accepted candidates, in order. *)
Lemma batchFills_perV0 cfg evs name :
  String.eqb "h_EventCounter" name = false ->
  fillsTo name (batchFills cfg evs)
  = flat_map (fun v0 => fillsTo name (acceptedFills v0)) (acceptedV0s cfg evs).
Proof.
  intros Hne. unfold batchFills, acceptedV0s. rewrite fillsTo_flat_map.
  induction evs as [|ev evs IH]; [reflexivity|].
  simpl. rewrite flat_map_app, <- IH. f_equal.
  rewrite eventFills_other by exact Hne.
  destruct (_ && _); [reflexivity|].
  rewrite <- flat_map_filter. apply flat_map_pointwise. intros v0.
  rewrite v0Fills_cases. now destruct (accepted _ _ _ _ _).
Qed.

Lemma flat_map_single {A B : Type} (f : A -> list B) (g : A -> B) (xs : list A) :
  (forall x, f x = [g x]) -> flat_map f xs = map g xs.
Proof.
  intros H. induction xs as [|x xs IH]; [reflexivity|]. simpl. now rewrite H, IH.
Qed.

Lemma runBatch_entries cfg evs (r : Registry) name (g : V0 -> list F.t) :
  booked r ->
  String.eqb "h_EventCounter" name = false ->
  (forall v0, fillsTo name (acceptedFills v0) = [g v0]) ->
  entriesOf (applyFills (batchFills cfg evs) r) name
  = rev (map g (acceptedV0s cfg evs)) ++ entriesOf r name.
Proof.
  intros Hb Hne Hg.
  rewrite entriesOf_applyFills by (auto using batchFills_names).
  now rewrite batchFills_perV0, (flat_map_single _ g) by assumption.
Qed.

(** X8: After a batch, [h_R], [h_pT] and [h_mass] hold, on top of what they
    held, the radius, transverse momentum and mass of exactly the
    candidates that [acceptV0] accepted in the events that got past the
    event selection, the last processed first. *)
Theorem kinematics_of_accepted cfg evs (r : Registry) :
  booked r ->
  exists r', runBatch cfg evs r = Some (tt, r')
    /\ entriesOf r' "Test/h_R"
       = rev (map (fun v0 => [v0radius v0]) (acceptedV0s cfg evs)) ++ entriesOf r "Test/h_R"
    /\ entriesOf r' "Test/h_pT"
       = rev (map (fun v0 => [pt v0]) (acceptedV0s cfg evs)) ++ entriesOf r "Test/h_pT"
    /\ entriesOf r' "Test/h_mass"
       = rev (map (fun v0 => [mK0Short v0]) (acceptedV0s cfg evs)) ++ entriesOf r "Test/h_mass".
Proof.
  intros Hb. exists (applyFills (batchFills cfg evs) r).
  split; [now apply runBatch_fills|].
  repeat split; apply runBatch_entries; try assumption; reflexivity.
Qed.

Lemma kinematics_of_accepted_witness :
  exists r', runBatch defaultConfig
               [sampleEvent true [goodV0 true true; badV0]; sampleEvent false [goodV0 true true]]
               initRegistry = Some (tt, r')
    /\ entriesOf r' "Test/h_R" = [[f_2_5]].
Proof.
  destruct (kinematics_of_accepted defaultConfig
              [sampleEvent true [goodV0 true true; badV0]; sampleEvent false [goodV0 true true]]
              initRegistry booked_init) as (r' & Hrun & HR & _).
  exists r'. split; [exact Hrun|]. rewrite HR, entriesOf_init. reflexivity.
Defined.

(** X9: Every per-candidate histogram receives exactly one fill per accepted
    candidate of a selected event: over a batch all eleven grow by the
    same number of entries, the number of accepted candidates. *)
Theorem one_fill_per_accepted cfg evs (r : Registry) name :
  booked r -> In name perV0Names ->
  exists r', runBatch cfg evs r = Some (tt, r')
    /\ length (entriesOf r' name)
       = (length (entriesOf r name) + length (acceptedV0s cfg evs))%nat.
Proof.
  intros Hb Hin. exists (applyFills (batchFills cfg evs) r).
  split; [now apply runBatch_fills|].
  assert (Hg : exists g, String.eqb "h_EventCounter" name = false
                         /\ forall v0, fillsTo name (acceptedFills v0) = [g v0]).
  { simpl in Hin.
    repeat (destruct Hin as [<-|Hin]; [eexists; split; [reflexivity|intros v0; reflexivity]|]).
    destruct Hin. }
  destruct Hg as (g & Hne & Hg).
  rewrite (runBatch_entries cfg evs r name g) by assumption.
  rewrite length_app, length_rev, length_map. lia.
Qed.

Lemma one_fill_per_accepted_witness :
  exists r', runBatch defaultConfig
               [sampleEvent true [goodV0 true true; badV0]; sampleEvent false [goodV0 true true]]
               initRegistry = Some (tt, r')
    /\ length (entriesOf r' "h5_RpTmassIBStatus") = 1%nat.
Proof.
  destruct (one_fill_per_accepted defaultConfig
              [sampleEvent true [goodV0 true true; badV0]; sampleEvent false [goodV0 true true]]
              initRegistry "h5_RpTmassIBStatus" booked_init) as (r' & Hrun & Hlen).
  { simpl. right. left. reflexivity. }
  exists r'. split; [exact Hrun|]. rewrite Hlen, entriesOf_init. reflexivity.
Defined.

Lemma entries_after_run cfg evs name (g : V0 -> list F.t) :
  String.eqb "h_EventCounter" name = false ->
  (forall v0, fillsTo name (acceptedFills v0) = [g v0]) ->
  entriesOf (applyFills (batchFills cfg evs) initRegistry) name
  = rev (map g (acceptedV0s cfg evs)).
Proof.
  intros Hne Hg.
  rewrite (runBatch_entries cfg evs initRegistry name g) by (auto using booked_init).
  now rewrite entriesOf_init, app_nil_r.
Qed.

Lemma projection_of_entries (g5 g1 : V0 -> list F.t) (i : nat) (l : list V0) :
  (forall v0, coord i (g5 v0) = g1 v0) ->
  rev (map g1 l) = map (coord i) (rev (map g5 l)).
Proof.
  intros H. rewrite map_rev, map_map. f_equal. apply map_ext. intros v0. now rewrite H.
Qed.

(** X10: After any run, each 1D test histogram is a projection of a 5D
    histogram: [h_R], [h_pT] and [h_mass] hold the first three coordinates
    of the fills of either 5D histogram, the two ITS status histograms the
    last two coordinates of [h5_RpTmassITSStatus], the two inner-barrel
    status histograms the last two of [h5_RpTmassIBStatus], fill by fill. *)
Theorem one_dim_are_projections cfg evs :
  exists r', runTask cfg evs ∅ = Some (tt, r')
    /\ (forall h5, h5 = "h5_RpTmassITSStatus" \/ h5 = "h5_RpTmassIBStatus" ->
          entriesOf r' "Test/h_R" = map (coord 0) (entriesOf r' h5)
          /\ entriesOf r' "Test/h_pT" = map (coord 1) (entriesOf r' h5)
          /\ entriesOf r' "Test/h_mass" = map (coord 2) (entriesOf r' h5))
    /\ entriesOf r' "Test/h_negITSStatus" = map (coord 3) (entriesOf r' "h5_RpTmassITSStatus")
    /\ entriesOf r' "Test/h_posITSStatus" = map (coord 4) (entriesOf r' "h5_RpTmassITSStatus")
    /\ entriesOf r' "Test/h_negIBStatus" = map (coord 3) (entriesOf r' "h5_RpTmassIBStatus")
    /\ entriesOf r' "Test/h_posIBStatus" = map (coord 4) (entriesOf r' "h5_RpTmassIBStatus").
Proof.
  exists (applyFills (batchFills cfg evs) initRegistry).
  split; [apply runTask_fills|].
  pose (its := fun v0 : V0 => F.of_bool (hasITS (negTrack v0))).
  pose (nib := fun v0 : V0 => F.of_bool (0 <? innerBits (itsClusterMap (negTrack v0)))).
  pose (pib := fun v0 : V0 => F.of_bool (0 <? innerBits (itsClusterMap (posTrack v0)))).
  rewrite (entries_after_run cfg evs "Test/h_R" (fun v0 => [v0radius v0])) by reflexivity.
  rewrite (entries_after_run cfg evs "Test/h_pT" (fun v0 => [pt v0])) by reflexivity.
  rewrite (entries_after_run cfg evs "Test/h_mass" (fun v0 => [mK0Short v0])) by reflexivity.
  rewrite (entries_after_run cfg evs "Test/h_negITSStatus" (fun v0 => [its v0])) by reflexivity.
  rewrite (entries_after_run cfg evs "Test/h_posITSStatus" (fun v0 => [its v0])) by reflexivity.
  rewrite (entries_after_run cfg evs "Test/h_negIBStatus" (fun v0 => [nib v0])) by reflexivity.
  rewrite (entries_after_run cfg evs "Test/h_posIBStatus" (fun v0 => [pib v0])) by reflexivity.
  rewrite (entries_after_run cfg evs "h5_RpTmassITSStatus"
             (fun v0 => [v0radius v0; pt v0; mK0Short v0; its v0; its v0])) by reflexivity.
  rewrite (entries_after_run cfg evs "h5_RpTmassIBStatus"
             (fun v0 => [v0radius v0; pt v0; mK0Short v0; nib v0; pib v0])) by reflexivity.
  split; [|repeat split; apply projection_of_entries; reflexivity].
  intros h5 [-> | ->].
  - rewrite (entries_after_run cfg evs "h5_RpTmassITSStatus"
               (fun v0 => [v0radius v0; pt v0; mK0Short v0; its v0; its v0])) by reflexivity.
    repeat split; apply projection_of_entries; reflexivity.
  - rewrite (entries_after_run cfg evs "h5_RpTmassIBStatus"
               (fun v0 => [v0radius v0; pt v0; mK0Short v0; nib v0; pib v0])) by reflexivity.
    repeat split; apply projection_of_entries; reflexivity.
Qed.

Lemma init_axes_arity name (h : Hist) :
  initRegistry !! name = Some h -> length (axes h) = fillArity name.
Proof.
  assert (Hall : map_Forall (fun name h => Nat.eqb (length (axes h)) (fillArity name) = true)
                            initRegistry).
  { apply map_Forall_to_list. vm_compute. repeat constructor. }
  intros Hh. apply Hall in Hh. now apply Nat.eqb_eq in Hh.
Qed.

Lemma counter_fills_arity cfg evs :
  Forall (fun xs => length xs = 1%nat) (fillsTo "h_EventCounter" (batchFills cfg evs)).
Proof.
  unfold batchFills. rewrite fillsTo_flat_map. apply Forall_flat_map_intro. intros ev.
  rewrite eventFills_counter. destruct (_ && _); repeat constructor.
Qed.

Lemma batch_fills_arity cfg evs name :
  In name histNames ->
  Forall (fun xs => length xs = fillArity name) (fillsTo name (batchFills cfg evs)).
Proof.
  intros Hin. simpl in Hin. destruct Hin as [<-|Hin]; [apply counter_fills_arity|].
  repeat (destruct Hin as [<-|Hin];
          [rewrite batchFills_perV0 by reflexivity;
           apply Forall_flat_map_intro; intros v0; repeat constructor|]).
  destruct Hin.
Qed.

(** X11: After any run, every fill a histogram holds has as many coordinates
    as the histogram has axes: one for the ten 1D histograms, five for the
    two sparse ones. *)
Theorem fills_match_axes cfg evs :
  exists r', runTask cfg evs ∅ = Some (tt, r')
    /\ forall name (h : Hist), r' !! name = Some h ->
         length (axes h) = fillArity name
         /\ Forall (fun xs => length xs = length (axes h)) (entries h).
Proof.
  exists (applyFills (batchFills cfg evs) initRegistry).
  split; [apply runTask_fills|]. intros name h Hh.
  assert (Hb : booked (applyFills (batchFills cfg evs) initRegistry))
    by apply applyFills_booked, booked_init.
  pose proof (Hb name) as Hs. rewrite Hh in Hs.
  destruct (initRegistry !! name) as [h0|] eqn:E; [|discriminate].
  simpl in Hs. injection Hs as Hax _.
  assert (Har : length (axes h) = fillArity name)
    by (rewrite Hax; now apply init_axes_arity).
  split; [exact Har|]. rewrite Har.
  assert (He : entries h = entriesOf (applyFills (batchFills cfg evs) initRegistry) name)
    by (unfold entriesOf; now rewrite Hh).
  rewrite He, entriesOf_applyFills by (auto using booked_init, batchFills_names).
  rewrite entriesOf_init, app_nil_r. apply Forall_rev, batch_fills_arity.
  now apply (init_lookup_names name h0).
Qed.

(** ** Bins *)

Lemma findBin_hits (m : Z) :
  findBin nhitsAxis (F.of_int (innerBits m)) = innerBits m + 1.
Proof.
  pose proof (innerBits_range m) as H.
  assert (innerBits m = 0 \/ innerBits m = 1 \/ innerBits m = 2 \/ innerBits m = 3)
    as [-> | [-> | [-> | ->]]] by lia; vm_compute; reflexivity.
Qed.

Lemma findBin_status (b : bool) :
  findBin statusAxis (F.of_bool b) = if b then 2 else 1.
Proof. destruct b; vm_compute; reflexivity. Qed.

Lemma Forall_rev_map {A B : Type} (P : B -> Prop) (g : A -> B) (l : list A) :
  (forall x, P (g x)) -> Forall P (rev (map g l)).
Proof.
  intros H. apply Forall_rev. induction l as [|x l IH]; simpl; constructor; auto.
Qed.

(** Where the hit counts and the flags land on the hits axis and on the
    status axis. *)
Lemma fills_land_on_axes cfg evs :
  exists r', runTask cfg evs ∅ = Some (tt, r')
    /\ (forall name, name = "Test/h_negIBhits" \/ name = "Test/h_posIBhits" ->
          Forall (landsIn nhitsAxis 1 4) (entriesOf r' name))
    /\ (forall name, name = "Test/h_negITSStatus" \/ name = "Test/h_posITSStatus"
                     \/ name = "Test/h_negIBStatus" \/ name = "Test/h_posIBStatus" ->
          Forall (landsIn statusAxis 1 2) (entriesOf r' name)).
Proof.
  exists (applyFills (batchFills cfg evs) initRegistry).
  split; [apply runTask_fills|]. split.
  - intros name [-> | ->].
    + rewrite (entries_after_run cfg evs _
                 (fun v0 => [F.of_int (innerBits (itsClusterMap (negTrack v0)))]))
        by reflexivity.
      apply Forall_rev_map. intros v0. unfold landsIn. rewrite findBin_hits.
      pose proof (innerBits_range (itsClusterMap (negTrack v0))). lia.
    + rewrite (entries_after_run cfg evs _
                 (fun v0 => [F.of_int (innerBits (itsClusterMap (posTrack v0)))]))
        by reflexivity.
      apply Forall_rev_map. intros v0. unfold landsIn. rewrite findBin_hits.
      pose proof (innerBits_range (itsClusterMap (posTrack v0))). lia.
  - intros name [-> | [-> | [-> | ->]]].
    + rewrite (entries_after_run cfg evs _
                 (fun v0 => [F.of_bool (hasITS (negTrack v0))])) by reflexivity.
      apply Forall_rev_map. intros v0. unfold landsIn. rewrite findBin_status.
      destruct (hasITS _); lia.
    + rewrite (entries_after_run cfg evs _
                 (fun v0 => [F.of_bool (hasITS (negTrack v0))])) by reflexivity.
      apply Forall_rev_map. intros v0. unfold landsIn. rewrite findBin_status.
      destruct (hasITS _); lia.
    + rewrite (entries_after_run cfg evs _
                 (fun v0 => [F.of_bool (0 <? innerBits (itsClusterMap (negTrack v0)))]))
        by reflexivity.
      apply Forall_rev_map. intros v0. unfold landsIn. rewrite findBin_status.
      destruct (0 <? _); lia.
    + rewrite (entries_after_run cfg evs _
                 (fun v0 => [F.of_bool (0 <? innerBits (itsClusterMap (posTrack v0)))]))
        by reflexivity.
      apply Forall_rev_map. intros v0. unfold landsIn. rewrite findBin_status.
      destruct (0 <? _); lia.
Qed.

Lemma init_hits_axis name :
  name = "Test/h_negIBhits" \/ name = "Test/h_posIBhits" ->
  exists h0, initRegistry !! name = Some h0 /\ axes h0 = [nhitsAxis].
Proof.
  intros [-> | ->]; eexists; (split; [vm_compute; reflexivity|reflexivity]).
Qed.

Lemma init_status_axis name :
  name = "Test/h_negITSStatus" \/ name = "Test/h_posITSStatus"
  \/ name = "Test/h_negIBStatus" \/ name = "Test/h_posIBStatus" ->
  exists h0, initRegistry !! name = Some h0 /\ axes h0 = [statusAxis].
Proof.
  intros [-> | [-> | [-> | ->]]]; eexists; (split; [vm_compute; reflexivity|reflexivity]).
Qed.

Lemma booked_axes (r : Registry) name (h0 : Hist) :
  booked r -> initRegistry !! name = Some h0 ->
  exists h, r !! name = Some h /\ axes h = axes h0 /\ entries h = entriesOf r name.
Proof.
  intros Hb H0. specialize (Hb name). rewrite H0 in Hb. clear H0.
  unfold entriesOf. destruct (r !! name) as [h|]; [|discriminate].
  exists h. simpl in Hb. injection Hb as Ha _. auto.
Qed.

Lemma inOwnRange_axis (h : Hist) (ax : AxisSpec) (xs : list F.t) :
  axes h = [ax] -> landsIn ax 1 (nBins ax) xs -> inOwnRange h xs.
Proof.
  intros Ha H. unfold inOwnRange. rewrite Ha.
  destruct xs as [|x [|? ?]]; simpl in H; try contradiction. exact H.
Qed.

(** X12: After any run, no fill of the hit-count and status histograms is in
    an underflow or overflow bin of the histogram that holds it: for each
    of [h_negIBhits], [h_posIBhits] and the four ITS and inner-barrel
    status histograms, as found in the final registry with the axis
    [init] booked it on, every fill is a single coordinate that lands in
    one of the bins 1 .. nBins of that axis. *)
Theorem status_and_hits_in_range cfg evs :
  exists r', runTask cfg evs ∅ = Some (tt, r')
    /\ forall name,
         In name ["Test/h_negIBhits"; "Test/h_posIBhits";
                  "Test/h_negITSStatus"; "Test/h_posITSStatus";
                  "Test/h_negIBStatus"; "Test/h_posIBStatus"] ->
         exists h, r' !! name = Some h
           /\ length (axes h) = 1%nat
           /\ Forall (inOwnRange h) (entries h).
Proof.
  destruct (fills_land_on_axes cfg evs) as (r' & Hrun & Hhits & Hstatus).
  destruct (runTask_succeeds cfg evs) as (r'' & Hrun' & Hb & _).
  rewrite Hrun in Hrun'. injection Hrun' as <-.
  exists r'. split; [exact Hrun|]. intros name Hin.
  assert (Hcase : (name = "Test/h_negIBhits" \/ name = "Test/h_posIBhits")
                  \/ (name = "Test/h_negITSStatus" \/ name = "Test/h_posITSStatus"
                      \/ name = "Test/h_negIBStatus" \/ name = "Test/h_posIBStatus")).
  { simpl in Hin. destruct Hin as [<-|[<-|[<-|[<-|[<-|[<-|[]]]]]]]; tauto. }
  destruct Hcase as [Hn|Hn].
  - destruct (init_hits_axis name Hn) as (h0 & H0 & Ha0).
    destruct (booked_axes r' name h0 Hb H0) as (h & Hh & Ha & He).
    rewrite Ha0 in Ha. exists h. split; [exact Hh|]. split; [now rewrite Ha|].
    rewrite He. eapply List.Forall_impl; [|apply (Hhits name Hn)].
    intros xs Hxs. now apply (inOwnRange_axis h nhitsAxis).
  - destruct (init_status_axis name Hn) as (h0 & H0 & Ha0).
    destruct (booked_axes r' name h0 Hb H0) as (h & Hh & Ha & He).
    rewrite Ha0 in Ha. exists h. split; [exact Hh|]. split; [now rewrite Ha|].
    rewrite He. eapply List.Forall_impl; [|apply (Hstatus name Hn)].
    intros xs Hxs. now apply (inOwnRange_axis h statusAxis).
Qed.

(** ** The event counter, exactly *)

Lemma selectedStep_passes cfg ev :
  selectedStep cfg (evCollision ev) = if eventPasses cfg ev then 1%nat else 0%nat.
Proof. unfold selectedStep, eventPasses. now destruct (_ && _). Qed.

(** X13: Over a batch the "Selected" bin goes up by the number of events that
    get past the event selection, that is those with [sel8] true, or all
    of them when the event selection is switched off: then "Selected" and
    "Total" go up together. *)
Theorem selected_count_exact cfg evs (r : Registry) :
  booked r ->
  exists r', runBatch cfg evs r = Some (tt, r')
    /\ booked r'
    /\ totalCount r' = (totalCount r + length evs)%nat
    /\ selectedCount r' = (selectedCount r + length (List.filter (eventPasses cfg) evs))%nat
    /\ (eventSelection cfg = false ->
        selectedCount r' = (selectedCount r + length evs)%nat).
Proof.
  revert r. induction evs as [|ev evs IH]; intros r Hb.
  - exists r. repeat split; try (simpl; lia). exact Hb.
  - destruct (processEvent_counter cfg ev r Hb) as (r1 & Hrun1 & Hb1 & Ht1 & Hs1).
    destruct (IH r1 Hb1) as (r2 & Hrun2 & Hb2 & Ht2 & Hs2 & Hoff).
    exists r2. unfold runBatch in *. simpl forEach. unfold bind at 1. rewrite Hrun1.
    rewrite selectedStep_passes in Hs1.
    split; [exact Hrun2|]. split; [exact Hb2|]. split; [simpl length; lia|].
    split.
    + simpl List.filter. destruct (eventPasses cfg ev); simpl length; lia.
    + intros He. specialize (Hoff He). unfold eventPasses in Hs1. rewrite He in Hs1.
      simpl in Hs1. simpl length. lia.
Qed.

Lemma selected_count_exact_witness :
  exists r', runBatch defaultConfig [emptyEvent true; emptyEvent false; emptyEvent true]
                      initRegistry = Some (tt, r')
    /\ totalCount r' = 3%nat /\ selectedCount r' = 2%nat.
Proof.
  destruct (selected_count_exact defaultConfig
              [emptyEvent true; emptyEvent false; emptyEvent true] initRegistry booked_init)
    as (r' & Hrun & _ & Ht & Hs & _).
  exists r'. destruct counters_init as [Ht0 Hs0]. rewrite Ht0 in Ht. rewrite Hs0 in Hs.
  repeat split; assumption.
Defined.

(** ** Inner-barrel status of an accepted candidate *)

Lemma hasIB_land_7 (m : Z) : (0 <? innerBits m) = negb (Z.land m 7 =? 0).
Proof.
  rewrite land_7_bits. unfold innerBits.
  destruct (Z.testbit m 0), (Z.testbit m 1), (Z.testbit m 2); reflexivity.
Qed.

(** X6: Unlike the ITS status, the inner-barrel status of each daughter comes
    from that daughter's own cluster map: for an accepted candidate the
    fill of [h5_RpTmassIBStatus] is (radius, pT, mass, negative daughter
    has [map & 0b111] non-zero, positive daughter has [map & 0b111]
    non-zero), and the same two flags go to [h_negIBStatus] and
    [h_posIBStatus]. *)
Theorem inner_barrel_status_per_daughter cfg collision v0 (r : Registry) :
  booked r ->
  acceptV0 cfg v0 (posTrack v0) (negTrack v0) collision r = Some (true, r) ->
  let negIB := F.of_bool (negb (Z.land (itsClusterMap (negTrack v0)) 7 =? 0)) in
  let posIB := F.of_bool (negb (Z.land (itsClusterMap (posTrack v0)) 7 =? 0)) in
  exists r', processV0 cfg collision v0 r = Some (tt, r')
    /\ entriesOf r' "h5_RpTmassIBStatus"
       = [v0radius v0; pt v0; mK0Short v0; negIB; posIB] :: entriesOf r "h5_RpTmassIBStatus"
    /\ entriesOf r' "Test/h_negIBStatus" = [negIB] :: entriesOf r "Test/h_negIBStatus"
    /\ entriesOf r' "Test/h_posIBStatus" = [posIB] :: entriesOf r "Test/h_posIBStatus".
Proof.
  intros Hb Hacc negIB posIB. subst negIB posIB. rewrite <- !hasIB_land_7.
  destruct (processV0_accepted cfg collision v0 r Hb Hacc) as (r' & Hrun & _ & He).
  exists r'. split; [exact Hrun|]. rewrite !He. repeat split; reflexivity.
Qed.

Lemma inner_barrel_status_per_daughter_witness :
  let v0 := sampleV0 f_0_999 (sampleTrack true 8 f_1) (sampleTrack true 6 f_1) in
  exists r', processV0 defaultConfig (sampleCollision true) v0 initRegistry = Some (tt, r')
    /\ entriesOf r' "h5_RpTmassIBStatus" = [[f_2_5; f_1; f_0_497; f_1; f_0]].
Proof.
  intros v0.
  destruct (inner_barrel_status_per_daughter defaultConfig (sampleCollision true) v0
              initRegistry booked_init eq_refl) as (r' & Hrun & H5 & _).
  exists r'. split; [exact Hrun|]. rewrite H5, entriesOf_init. reflexivity.
Defined.
